(** * Device-to-cloud dispatch core: a shallow embedding and its properties

    The development embeds the Python sources of the IoT device client
    (azure-iot-example_thread.py, azure-iot-thread-simple.py, my_azure.py,
    slave.py) and settles the properties stated about the Sender, the
    Connection Manager, the Command Dispatcher and the readiness state.

    Conventions.
    - Python values that flow through the queues are [pyval]s.
    - A Python call is a state transformer that either returns or raises:
      [M S A := S -> S * res A]; the effects performed before a raise stay.
    - The remote session client, the network probe and the relay are the
      external collaborators: what they answer is an input of the model
      (an [outcome], a [bool]), what they are asked is recorded in a log.
    - Logger calls have no effect on control flow and are left out. *)

From Stdlib Require Import List String ZArith QArith Bool Lia Permutation.
Import ListNotations.
Open Scope string_scope.
Open Scope list_scope.
Set Warnings "-register-all".

(* ===================================================================== *)
(** ** Python values, exceptions, results *)
(* ===================================================================== *)

Module Py.

Inductive pyval : Type :=
| VNone
| VBool (b : bool)
| VNum (q : Q)
| VStr (s : string)
| VList (l : list pyval)
| VDict (d : list (string * pyval)).

Inductive exn : Type :=
| TypeError | IndexError | KeyError | AttributeError
| NameError | UnboundLocalError
| TimeoutError                     (* concurrent.futures.TimeoutError *)
| ClientError (reason : string)    (* anything the session client raises *)
| OSError                          (* gpiod cannot hand out the line *)
| ValueError                       (* time.sleep: a negative time *)
| OverflowError.                   (* time.sleep: a time beyond the clock *)

Inductive res (A : Type) : Type :=
| Ret (a : A)
| Raise (e : exn).
Arguments Ret {A} a.
Arguments Raise {A} e.

(** State-and-exception monad. *)
Definition M (S A : Type) : Type := S -> S * res A.

Definition ret {S A} (a : A) : M S A := fun s => (s, Ret a).
Definition raise {S A} (e : exn) : M S A := fun s => (s, Raise e).
Definition bind {S A B} (m : M S A) (k : A -> M S B) : M S B :=
  fun s => match m s with
           | (s', Ret a) => k a s'
           | (s', Raise e) => (s', Raise e)
           end.
(** [try: m except Exception as e: h e] *)
Definition try_except {S A} (m : M S A) (h : exn -> M S A) : M S A :=
  fun s => match m s with
           | (s', Ret a) => (s', Ret a)
           | (s', Raise e) => h e s'
           end.
Definition lift {S A} (r : res A) : M S A := fun s => (s, r).
Definition modify {S} (f : S -> S) : M S unit := fun s => (f s, Ret tt).
Definition gets {S A} (f : S -> A) : M S A := fun s => (s, Ret (f s)).

Declare Scope py_scope.
Delimit Scope py_scope with py.
Notation "x <- m ;; k" := (bind m (fun x => k))
  (at level 61, m at next level, right associativity) : py_scope.
Notation "m ;; k" := (bind m (fun _ => k))
  (at level 61, right associativity) : py_scope.

(** Dictionary lookup on the association-list representation. *)
Fixpoint lookup (k : string) (d : list (string * pyval)) : option pyval :=
  match d with
  | [] => None
  | (k', v) :: d' => if String.eqb k k' then Some v else lookup k d'
  end.

(** [v == s] for a string literal [s]. *)
Definition eq_str (v : pyval) (s : string) : bool :=
  match v with
  | VStr t => String.eqb t s
  | _ => false
  end.

(** [v[i]] for an integer literal [i]. *)
Definition subscript_int (v : pyval) (i : nat) : res pyval :=
  match v with
  | VList l =>
      match nth_error l i with
      | Some x => Ret x
      | None => Raise IndexError
      end
  | VStr s =>
      match String.get i s with
      | Some c => Ret (VStr (String c EmptyString))
      | None => Raise IndexError
      end
  | VDict _ => Raise KeyError
  | VNone | VBool _ | VNum _ => Raise TypeError
  end.

(** [v[k]] for a string literal [k]. *)
Definition subscript_str (v : pyval) (k : string) : res pyval :=
  match v with
  | VDict d =>
      match lookup k d with
      | Some x => Ret x
      | None => Raise KeyError
      end
  | _ => Raise TypeError
  end.

(** [v.get(k, default)]: only a dict has the method. *)
Definition get (v : pyval) (k : string) (default : pyval) : res pyval :=
  match v with
  | VDict d =>
      Ret (match lookup k d with
           | Some x => x
           | None => default
           end)
  | _ => Raise AttributeError
  end.

End Py.
Import Py.
Open Scope py_scope.

(* ===================================================================== *)
(** ** The external collaborators *)
(* ===================================================================== *)

(** What the session client is asked to deliver. *)
Inductive call : Type :=
| SendMessage (payload : pyval)                  (* client.send_message *)
| PatchTwinReportedProperties (payload : pyval). (* client.patch_twin_reported_properties *)

(** What happens to a submitted call within the bounded wait. *)
Inductive outcome : Type :=
| Delivered
| TimedOut
| Failed (reason : string).

(** A method request as the SDK hands it to [command_handler]. *)
Record method_request : Type := {
  name : string;
  payload : pyval;
  request_id : string
}.

(** A method response; [create_from_method_request] is the SDK's
    constructor, which copies the request id of the request. *)
Record method_response : Type := {
  resp_request_id : string;
  resp_status : Z;
  resp_payload : pyval
}.

Definition create_from_method_request
    (req : method_request) (code : Z) (body : pyval) : method_response :=
  {| resp_request_id := request_id req;
     resp_status := code;
     resp_payload := body |}.

(** Observable events, in program order. *)
Inductive event : Type :=
| EvProbe (reachable : bool)          (* is_network_connected() *)
| EvSleep (seconds : Q)               (* time.sleep *)
| EvConnect (ok : bool)               (* client.connect() *)
| EvSubmit (c : call) (o : outcome).  (* executor.submit + future.result *)

(* ===================================================================== *)
(** ** slave.py *)
(* ===================================================================== *)

(** Atomic steps of the tasks that share the readiness flag. A task's code
    runs in [M (list action)]: the state is the sequence of steps it has
    performed so far, in program order. *)
Inductive action : Type :=
| ASetReady (b : bool)            (* SLAVE_READY_STATE = b *)
| ASleep (seconds : Q)            (* time.sleep *)
| ARequestLine (gpio_line : Z)    (* Relay.__init__: gpiod.request_lines *)
| ARelay (active : bool)          (* Relay.turn_on / Relay.turn_off *)
| ARespond (r : method_response). (* client.send_method_response *)

Definition act (a : action) : M (list action) unit :=
  modify (fun done => done ++ [a]).

(** The longest time [time.sleep] takes: CPython keeps a time as a signed
    64-bit count of nanoseconds. *)
Definition SLEEP_MAX : Q := 9223372036854775807 # 1000000000.

(** Does [time.sleep] take this time? *)
Definition sleep_accepted (seconds : Q) : bool :=
  Qle_bool 0 seconds && Qle_bool seconds SLEEP_MAX.

(** [time.sleep(seconds)] in a task: a negative time is refused with a
    [ValueError], one beyond the clock with an [OverflowError]; a refused
    sleep is not a step of the task. *)
Definition task_sleep (seconds : Q) : M (list action) unit :=
  if negb (Qle_bool 0 seconds) then raise ValueError
  else if negb (Qle_bool seconds SLEEP_MAX) then raise OverflowError
  else act (ASleep seconds).

Module Slave.

(** [Slave(relay_gpio_line, num, debug)]: the constructor builds the
    [Relay], which requests the GPIO line; [line_ok] is whether the
    hardware hands it out. *)
Definition init (line_ok : bool) (relay_gpio_line : Z) : M (list action) unit :=
  act (ARequestLine relay_gpio_line) ;;
  if line_ok then ret tt else raise OSError.

(** [power_cycle(off_duration)]: relay on, hold, relay off. *)
Definition power_cycle (off_duration : Q) : M (list action) unit :=
  act (ARelay true) ;;
  task_sleep off_duration ;;
  act (ARelay false).

End Slave.

(* ===================================================================== *)
(** ** The process state seen by the Sender and the Connection Manager *)
(* ===================================================================== *)

Record world : Type := {
  send_queue : list pyval;   (* queue.Queue(): head is served first *)
  connected : bool;          (* client.connected *)
  log : list event
}.

Definition put (msg : pyval) : M world unit :=
  modify (fun w => {| send_queue := send_queue w ++ [msg];
                      connected := connected w;
                      log := log w |}).

Definition set_queue (q : list pyval) : M world unit :=
  modify (fun w => {| send_queue := q;
                      connected := connected w;
                      log := log w |}).

Definition set_connected (b : bool) : M world unit :=
  modify (fun w => {| send_queue := send_queue w;
                      connected := b;
                      log := log w |}).

Definition emit (e : event) : M world unit :=
  modify (fun w => {| send_queue := send_queue w;
                      connected := connected w;
                      log := log w ++ [e] |}).

Definition sleep (seconds : Q) : M world unit := emit (EvSleep seconds).

(** [future.result(timeout=...)]: an unbound [future] is a
    [UnboundLocalError]; a bound one waits for what the client answers. *)
Definition future_result (future : option call) (o : outcome) : M world unit :=
  match future with
  | None => raise UnboundLocalError
  | Some c =>
      emit (EvSubmit c o) ;;
      match o with
      | Delivered => ret tt
      | TimedOut => raise TimeoutError
      | Failed reason => raise (ClientError reason)
      end
  end.

(** The two [except] clauses that close [send_with_timeout]. *)
Definition send_handlers (e : exn) : M world bool :=
  match e with
  | TimeoutError => ret false   (* except concurrent.futures.TimeoutError *)
  | _ => ret false              (* except Exception *)
  end.

(** What one turn of a loop is given by its surroundings. *)
Record slice : Type := {
  arrivals : list pyval;   (* what the producers put before [get] returns *)
  probes_failed : nat;     (* failed reachability probes before a good one *)
  handshake_ok : bool;     (* does client.connect() succeed, if called *)
  delivery : outcome       (* what a submitted call meets *)
}.

(* ===================================================================== *)
(** ** azure-iot-example_thread.py *)
(* ===================================================================== *)

Module ExampleThread.

Definition MSGTYPE (i : nat) : string :=
  nth i ["telemetry"; "propertyUpdate"] "".

Record globals : Type := {
  SLAVE_READY_STATE : bool;
  ERROR_STATE : bool;
  STOP_HEARTBEAT : bool
}.

Record config : Type := {
  interval_sec : Q;              (* TELEMETRY_CONFIG *)
  check_interval_sec : Q;        (* NETWORK_CONFIG *)
  send_retry_interval_sec : Q;
  relay_gpio_line : Z;           (* HARDWARE_CONFIG["slave"] *)
  power_off_delay_sec : Q
}.

Definition status (g : globals) : string :=
  if ERROR_STATE g then "Error"
  else if negb (SLAVE_READY_STATE g) then "AwaitingSlave"
  else "Ready".

Definition send_with_timeout (o : outcome) (message : pyval) : M world bool :=
  match message with
  | VNone => ret true
  | _ =>
      kind <- lift (subscript_int message 0) ;;
      future <-
        (if eq_str kind (MSGTYPE 0) then
           body <- lift (subscript_int message 1) ;;
           ret (Some (SendMessage body))
         else
           kind' <- lift (subscript_int message 0) ;;
           if eq_str kind' (MSGTYPE 1) then
             body <- lift (subscript_int message 1) ;;
             ret (Some (PatchTwinReportedProperties body))
           else ret None) ;;
      try_except (future_result future o ;; ret true) send_handlers
  end.

(** [with client_lock:] brackets the connected test and the handshake; the
    handler of a failed handshake evaluates [retry_interval], a name that
    is bound nowhere in the module. *)
Definition connect_to_iot_hub (handshake : bool) : M world bool :=
  c <- gets connected ;;
  (if negb c then
     try_except
       (emit (EvConnect handshake) ;;
        if handshake then set_connected true
        else raise (ClientError "connect"))
       (fun _ => raise NameError)
   else ret tt) ;;
  ret true.

Fixpoint wait_for_network (cfg : config) (failed : nat) : M world unit :=
  match failed with
  | O => emit (EvProbe true)
  | S failed' =>
      emit (EvProbe false) ;;
      sleep (check_interval_sec cfg) ;;
      wait_for_network cfg failed'
  end.

(** One turn of the loop of [sender_task], after [send_queue.get()]. *)
Definition sender_body (cfg : config) (sl : slice) (msg : pyval) : M world unit :=
  wait_for_network cfg (probes_failed sl) ;;
  ok <- connect_to_iot_hub (handshake_ok sl) ;;
  if negb ok then
    sleep (check_interval_sec cfg) ;;
    put msg
  else
    try_except
      (send_with_timeout (delivery sl) msg ;; ret tt)
      (fun _ => put msg ;; sleep (send_retry_interval_sec cfg)) ;;
    sleep (1 # 10).

(** [sender_task]: one slice per turn; with nothing queued the task stays
    in [send_queue.get()] until a later slice brings a message; the list
    ends when [running_event] is cleared. A raise ends the thread. *)
Fixpoint sender_task (cfg : config) (slices : list slice) : M world unit :=
  match slices with
  | [] => ret tt
  | sl :: rest =>
      q <- gets (fun w => send_queue w ++ arrivals sl) ;;
      match q with
      | [] => sender_task cfg rest
      | msg :: q' =>
          set_queue q' ;;
          sender_body cfg sl msg ;;
          sender_task cfg rest
      end
  end.

(** [sensor_task]: the messages it puts, in order, over the clock readings
    [now] of its turns, each with the payload [create_telemetry()] would
    build at that time. *)
Fixpoint sensor_task (cfg : config) (last_time : Q) (ticks : list (Q * pyval))
  : list pyval :=
  match ticks with
  | [] => []
  | (now, body) :: rest =>
      if Qle_bool (interval_sec cfg) (now - last_time) then
        VList [VStr (MSGTYPE 0); body] :: sensor_task cfg now rest
      else sensor_task cfg last_time rest
  end.

(** *** Command processor *)

(** [if delay_sec is None or delay_sec < 0: delay_sec = 0], then the value
    [time.sleep] is given, in seconds. *)
Definition clamp_delay (delay_sec : pyval) : res Q :=
  match delay_sec with
  | VNone => Ret 0
  | VNum q => Ret (if Qle_bool 0 q then q else 0)
  | VBool b => Ret (if b then 1 else 0)
  | VStr _ | VList _ | VDict _ => Raise TypeError
  end.

Definition restart_slave_task (cfg : config) (line_ok : bool) (delay_sec : pyval)
  : M (list action) unit :=
  d <- lift (clamp_delay delay_sec) ;;
  act (ASetReady false) ;;
  task_sleep d ;;
  Slave.init line_ok (relay_gpio_line cfg) ;;
  Slave.power_cycle (power_off_delay_sec cfg) ;;
  act (ASetReady true).

(** Threads started by the handlers, by target and arguments. *)
Inductive thread : Type :=
| RestartSlaveTask (delay_sec : pyval).

Record dispatcher : Type := {
  threads : list thread;          (* threading.Thread(...).start() *)
  sent : list method_response     (* client.send_method_response *)
}.

Definition start (t : thread) : M dispatcher unit :=
  modify (fun d => {| threads := threads d ++ [t]; sent := sent d |}).

Definition send_method_response (r : method_response) : M dispatcher unit :=
  modify (fun d => {| threads := threads d; sent := sent d ++ [r] |}).

Definition restart_cmd (cmd_payload : pyval) : M dispatcher (string * Z) :=
  delay <- lift (get cmd_payload "delay" (VNum 0)) ;;
  reason <- lift (get cmd_payload "reason" (VStr "unspecified")) ;;
  start (RestartSlaveTask delay) ;;
  ret ("restarted", 200%Z).

(** The routing inside the [try]. *)
Definition route (cmd_name : string) (cmd_payload : pyval)
  : M dispatcher (string * Z) :=
  if String.eqb cmd_name "restart" then restart_cmd cmd_payload
  else ret ("Unknown command", 404%Z).

(** One turn of the loop of [command_processor_task]. *)
Definition command_processor_body (cmd_request : method_request)
  : M dispatcher unit :=
  let cmd_name := name cmd_request in
  let cmd_payload := payload cmd_request in
  sc <- try_except (route cmd_name cmd_payload)
                   (fun _ => ret ("error", 500%Z)) ;;
  let response_payload :=
    VDict [("status", VStr (fst sc)); ("code", VNum (inject_Z (snd sc)))] in
  let response :=
    create_from_method_request cmd_request (snd sc) response_payload in
  send_method_response response.

(** [command_processor_task] over the requests it takes from
    [command_queue] while [running_event] is set. *)
Fixpoint command_processor_task (requests : list method_request)
  : M dispatcher unit :=
  match requests with
  | [] => ret tt
  | cmd_request :: rest =>
      command_processor_body cmd_request ;;
      command_processor_task rest
  end.

End ExampleThread.

(* ===================================================================== *)
(** ** my_azure.py *)
(* ===================================================================== *)

Module MyAzure.

Definition MSGTYPE (i : nat) : string := nth i ["TELEMETRY"; "PROPERTY"] "".
Definition RECONNECT_INTERVAL : Q := 5.
Definition RESEND_INTERVAL : Q := 15.

(** [prepaere_telemetry_message] wraps the payload in the SDK's [Message];
    the wrapped value stays opaque to the core. *)
Definition create_telementry_message_pair (message : pyval) : pyval :=
  VDict [("type", VStr (MSGTYPE 0)); ("msg", message)].

Definition create_property_message_pair (message : pyval) : pyval :=
  VDict [("type", VStr (MSGTYPE 1)); ("msg", message)].

(** [Client.send_with_timeout] *)
Definition send_with_timeout (o : outcome) (message : pyval) : M world bool :=
  match message with
  | VNone => ret true
  | _ =>
      kind <- lift (subscript_str message "type") ;;
      future <-
        (if eq_str kind (MSGTYPE 0) then
           body <- lift (subscript_str message "msg") ;;
           ret (Some (SendMessage body))
         else
           kind' <- lift (subscript_str message "type") ;;
           if eq_str kind' (MSGTYPE 1) then
             body <- lift (subscript_str message "msg") ;;
             ret (Some (PatchTwinReportedProperties body))
           else ret None) ;;
      try_except (future_result future o ;; ret true) send_handlers
  end.

(** [Client.connect_to_iot_hub] *)
Definition connect_to_iot_hub (handshake : bool) : M world bool :=
  c <- gets connected ;;
  (if negb c then
     try_except
       (emit (EvConnect handshake) ;;
        if handshake then set_connected true
        else raise (ClientError "connect"))
       (fun _ => sleep RECONNECT_INTERVAL)
   else ret tt) ;;
  ret true.

End MyAzure.

(* ===================================================================== *)
(** ** azure-iot-thread-simple.py *)
(* ===================================================================== *)

Module ThreadSimple.

Inductive thread : Type :=
| RestartSlaveTask (delay_sec : pyval)
| StopTask.

Record dispatcher : Type := {
  slave_ip_address : string;      (* SLAVE_CONFIG["slave_ip_address"] *)
  threads : list thread;
  sent : list method_response
}.

Definition start (t : thread) : M dispatcher unit :=
  modify (fun d => {| slave_ip_address := slave_ip_address d;
                      threads := threads d ++ [t];
                      sent := sent d |}).

Definition send_method_response (r : method_response) : M dispatcher unit :=
  modify (fun d => {| slave_ip_address := slave_ip_address d;
                      threads := threads d;
                      sent := sent d ++ [r] |}).

Definition set_slave_ip_address (ip : string) : M dispatcher unit :=
  modify (fun d => {| slave_ip_address := ip;
                      threads := threads d;
                      sent := sent d |}).

Definition restart_cmd (cmd_payload : pyval) : M dispatcher (string * Z) :=
  delay <- lift (get cmd_payload "delay" (VNum 0)) ;;
  reason <- lift (get cmd_payload "reason" (VStr "unspecified")) ;;
  start (RestartSlaveTask delay) ;;
  ret ("restarted", 200%Z).

Definition stop_cmd : M dispatcher (string * Z) :=
  start StopTask ;;
  ret ("Recived", 999%Z).

Section Dispatch.

(** Python's built-in [str], total on every value. *)
Variable str : pyval -> string.

Definition set_slave_ip_cmd (cmd_payload : pyval) : M dispatcher (string * Z) :=
  ip <- lift (get cmd_payload "IP" (VNum 0)) ;;
  set_slave_ip_address (str ip) ;;
  ret ("updated", 200%Z).

Definition route (cmd_name : string) (cmd_payload : pyval)
  : M dispatcher (string * Z) :=
  if String.eqb cmd_name "RestartSlave" then restart_cmd cmd_payload
  else if String.eqb cmd_name "SetSlaveIP" then set_slave_ip_cmd cmd_payload
  else if String.eqb cmd_name "Stop" then stop_cmd
  else ret ("Unknown command", 404%Z).

Definition command_processor_body (cmd_request : method_request)
  : M dispatcher unit :=
  let cmd_name := name cmd_request in
  let cmd_payload := payload cmd_request in
  sc <- try_except (route cmd_name cmd_payload)
                   (fun _ => ret ("error", 500%Z)) ;;
  let response_payload :=
    VDict [("status", VStr (fst sc)); ("code", VNum (inject_Z (snd sc)))] in
  let response :=
    create_from_method_request cmd_request (snd sc) response_payload in
  send_method_response response.

Fixpoint command_processor_task (requests : list method_request)
  : M dispatcher unit :=
  match requests with
  | [] => ret tt
  | cmd_request :: rest =>
      command_processor_body cmd_request ;;
      command_processor_task rest
  end.

End Dispatch.

End ThreadSimple.

(* ===================================================================== *)
(** ** The dispatcher and a started task, running side by side *)
(* ===================================================================== *)

Module Tasks.

(** The dispatcher thread and one started thread, each with the steps it
    still has to take; any thread with a step left may take it next. *)
Record sys : Type := {
  ready : bool;             (* SLAVE_READY_STATE *)
  trace : list action;      (* the steps taken, in the order taken *)
  main : list action;       (* left to do in command_processor_task *)
  worker : list action      (* left to do in the started thread *)
}.

Definition perform (a : action) (rdy : bool) : bool :=
  match a with
  | ASetReady b => b
  | _ => rdy
  end.

Inductive step : sys -> sys -> Prop :=
| step_main : forall s a pc,
    main s = a :: pc ->
    step s {| ready := perform a (ready s); trace := trace s ++ [a];
              main := pc; worker := worker s |}
| step_worker : forall s a pc,
    worker s = a :: pc ->
    step s {| ready := perform a (ready s); trace := trace s ++ [a];
              main := main s; worker := pc |}.

Inductive steps : sys -> sys -> Prop :=
| steps_refl : forall s, steps s s
| steps_next : forall s s' s'', step s s' -> steps s' s'' -> steps s s''.

Definition terminal (s : sys) : Prop := main s = [] /\ worker s = [].

(** A schedule picks the thread of each step: [true] the dispatcher,
    [false] the started thread. *)
Fixpoint run (schedule : list bool) (s : sys) : sys :=
  match schedule with
  | [] => s
  | true :: rest =>
      match main s with
      | a :: pc =>
          run rest {| ready := perform a (ready s); trace := trace s ++ [a];
                      main := pc; worker := worker s |}
      | [] => run rest s
      end
  | false :: rest =>
      match worker s with
      | a :: pc =>
          run rest {| ready := perform a (ready s); trace := trace s ++ [a];
                      main := main s; worker := pc |}
      | [] => run rest s
      end
  end.

(** The steps a task takes, from its code. *)
Definition program {A} (m : M (list action) A) : list action := fst (m []).

Definition is_respond (a : action) : bool :=
  match a with
  | ARespond _ => true
  | _ => false
  end.

(** Is a response the first thing in the trace among responses and
    writes of the readiness flag? *)
Fixpoint respond_before_ready (tr : list action) : bool :=
  match tr with
  | [] => false
  | ARespond _ :: _ => true
  | ASetReady _ :: _ => false
  | _ :: rest => respond_before_ready rest
  end.

(** The process right after [threading.Thread(...).start()] in the handler
    of [cmd_request]: the dispatcher has its response left to send, the
    started thread has all its steps ahead. *)
Definition after_start (cfg : ExampleThread.config) (line_ok : bool)
    (flag : bool) (cmd_request : method_request) : sys :=
  let d := fst (ExampleThread.command_processor_body cmd_request
                  {| ExampleThread.threads := []; ExampleThread.sent := [] |}) in
  {| ready := flag;
     trace := [];
     main := map ARespond (ExampleThread.sent d);
     worker :=
       match ExampleThread.threads d with
       | ExampleThread.RestartSlaveTask delay :: _ =>
           program (ExampleThread.restart_slave_task cfg line_ok delay)
       | [] => []
       end |}.

End Tasks.

(* ===================================================================== *)
(** ** More of Python: membership, comparison with zero *)
(* ===================================================================== *)

Module PyMore.

(** [k in v] for a string literal [k]: a key of a dict, an element of a
    list, a substring of a string; the other values are not iterable. *)
Definition contains (k : string) (v : pyval) : res bool :=
  match v with
  | VDict d =>
      Ret (match lookup k d with
           | Some _ => true
           | None => false
           end)
  | VList l => Ret (existsb (fun x => eq_str x k) l)
  | VStr s =>
      Ret (match String.index 0 k s with
           | Some _ => true
           | None => false
           end)
  | VNone | VBool _ | VNum _ => Raise TypeError
  end.

(** The number an ordering comparison with [0] sees. Numbers are
    rationals: the NaN and the infinities of Python's floats are outside
    the model. *)
Definition num_of (v : pyval) : res Q :=
  match v with
  | VNum q => Ret q
  | VBool b => Ret (if b then 1 else 0)
  | VNone | VStr _ | VList _ | VDict _ => Raise TypeError
  end.

(** [v <= 0] *)
Definition le_zero (v : pyval) : res bool :=
  match num_of v with
  | Ret q => Ret (Qle_bool q 0)
  | Raise e => Raise e
  end.

(** [v < 0] *)
Definition lt_zero (v : pyval) : res bool :=
  match num_of v with
  | Ret q => Ret (negb (Qle_bool 0 q))
  | Raise e => Raise e
  end.

(** The truth value [if v:] sees. *)
Definition truthy (v : pyval) : bool :=
  match v with
  | VNone => false
  | VBool b => b
  | VNum q => negb (Qeq_bool q 0)
  | VStr s => negb (String.eqb s "")
  | VList l => match l with [] => false | _ :: _ => true end
  | VDict d => match d with [] => false | _ :: _ => true end
  end.

End PyMore.
Import PyMore.

(* ===================================================================== *)
(** ** network.py *)
(* ===================================================================== *)

Module Network.

Definition CHECK_INTERVAL : Q := 5.

(** What [subprocess.run(["ping", ...], timeout=5)] comes to. *)
Inductive ping_outcome : Type :=
| Exited (returncode : Z)
| TimeoutExpired
| FileNotFound
| OtherError.

(** [ping]: every exception is caught. *)
Definition ping (o : ping_outcome) : bool :=
  match o with
  | Exited code => Z.eqb code 0
  | TimeoutExpired => false
  | FileNotFound => false
  | OtherError => false
  end.

(** [wait_until_connected]: the loop around [is_connected()]. Its body
    calls [time.sleep], and network.py does not import [time]: the first
    failed probe ends the call with a [NameError]. *)
Definition wait_until_connected (failed : nat) : M world unit :=
  match failed with
  | O => emit (EvProbe true)
  | S _ => emit (EvProbe false) ;; raise NameError
  end.

End Network.

(* ===================================================================== *)
(** ** azure-iot-example_thread.py: configuration and heartbeat *)
(* ===================================================================== *)

Module ExampleThreadRest.

Definition DEFAULT_TELEMETRY_INTERVAL_SEC : pyval := VNum 10.
Definition DEFAULT_CHECK_INTERVAL : pyval := VNum 5.
Definition DEFAULT_SEND_RETRY_INTERVAL : pyval := VNum 5.
Definition DEFAULT_HEARTBEAT_INTERVAL_SEC : pyval := VNum 60.

(** NETWORK_CONFIG *)
Record network_config : Type := {
  check_interval_sec : pyval;
  send_retry_interval_sec : pyval
}.

(** TELEMETRY_CONFIG *)
Record telemetry_config : Type := {
  interval_sec : pyval;
  heartbeat_interval_sec : pyval
}.

(** The dict [parse_slave_config] returns. *)
Record slave_config : Type := {
  num : pyval;
  relay_gpio_line : Z;
  power_off_delay_sec : Q
}.

Definition DEFAULT_SLAVE_CONFIG : slave_config :=
  {| num := VNum 0; relay_gpio_line := 17; power_off_delay_sec := 5 |}.

Definition parse_network_config (config : pyval) : M network_config unit :=
  has_app <- lift (contains "app" config) ;;
  if negb has_app then ret tt
  else
    app_config <- lift (subscript_str config "app") ;;
    has_network <- lift (contains "network" app_config) ;;
    if negb has_network then ret tt
    else
      network_cfg <- lift (subscript_str app_config "network") ;;
      check_interval <-
        lift (get network_cfg "check_interval_sec" DEFAULT_CHECK_INTERVAL) ;;
      bad_check <- lift (le_zero check_interval) ;;
      let check_interval :=
        if bad_check then DEFAULT_CHECK_INTERVAL else check_interval in
      send_retry_interval <-
        lift (get network_cfg "send_retry_interval_sec"
                DEFAULT_SEND_RETRY_INTERVAL) ;;
      bad_retry <- lift (le_zero send_retry_interval) ;;
      let send_retry_interval :=
        if bad_retry then DEFAULT_SEND_RETRY_INTERVAL
        else send_retry_interval in
      modify (fun c => {| check_interval_sec := check_interval;
                          send_retry_interval_sec := send_retry_interval_sec c |}) ;;
      modify (fun c => {| check_interval_sec := check_interval_sec c;
                          send_retry_interval_sec := send_retry_interval |}).

Section Conversions.

(** Python's built-ins [int] and [float]: the number, or a raise on what
    they cannot convert. *)
Variable int_ : pyval -> res Z.
Variable float_ : pyval -> res Q.

(** [heartbeat_interval_sec] is bound only inside the [if]; the second
    assignment to TELEMETRY_CONFIG reads it. *)
Definition parse_telemetry_config (config : pyval) : M telemetry_config unit :=
  has_app <- lift (contains "app" config) ;;
  if negb has_app then ret tt
  else
    app_config <- lift (subscript_str config "app") ;;
    has_telemetry <- lift (contains "telemetry" app_config) ;;
    if negb has_telemetry then ret tt
    else
      telemetry_cfg <- lift (subscript_str app_config "telemetry") ;;
      interval <-
        lift (get telemetry_cfg "interval_sec" DEFAULT_TELEMETRY_INTERVAL_SEC) ;;
      bad_interval <- lift (le_zero interval) ;;
      let interval :=
        if bad_interval then DEFAULT_TELEMETRY_INTERVAL_SEC else interval in
      has_heartbeat <- lift (contains "heartbeat_interval_sec" telemetry_cfg) ;;
      heartbeat <-
        (if has_heartbeat then
           v <- lift (get telemetry_cfg "heartbeat_interval_sec"
                        DEFAULT_HEARTBEAT_INTERVAL_SEC) ;;
           z <- lift (int_ v) ;;
           ret (Some (if Z.leb z 0 then DEFAULT_HEARTBEAT_INTERVAL_SEC
                      else VNum (inject_Z z)))
         else ret None) ;;
      modify (fun c => {| interval_sec := interval;
                          heartbeat_interval_sec := heartbeat_interval_sec c |}) ;;
      match heartbeat with
      | None => raise UnboundLocalError
      | Some h =>
          modify (fun c => {| interval_sec := interval_sec c;
                              heartbeat_interval_sec := h |})
      end.

Definition parse_slave_config (slave_cfg : pyval) : res slave_config :=
  match get slave_cfg "num" (num DEFAULT_SLAVE_CONFIG) with
  | Raise e => Raise e
  | Ret n =>
  match lt_zero n with
  | Raise e => Raise e
  | Ret bad_num =>
  let n := if bad_num then num DEFAULT_SLAVE_CONFIG else n in
  match get slave_cfg "power_off_delay_sec"
          (VNum (power_off_delay_sec DEFAULT_SLAVE_CONFIG)) with
  | Raise e => Raise e
  | Ret p =>
  match float_ p with
  | Raise e => Raise e
  | Ret delay =>
  let delay :=
    if negb (Qle_bool 0 delay) then power_off_delay_sec DEFAULT_SLAVE_CONFIG
    else delay in
  match get slave_cfg "relay_gpio_line"
          (VNum (inject_Z (relay_gpio_line DEFAULT_SLAVE_CONFIG))) with
  | Raise e => Raise e
  | Ret l =>
  match int_ l with
  | Raise e => Raise e
  | Ret line =>
  let line :=
    if Z.ltb line 0 then relay_gpio_line DEFAULT_SLAVE_CONFIG else line in
  Ret {| num := n; relay_gpio_line := line; power_off_delay_sec := delay |}
  end end end end end end.

End Conversions.

(** The double quote of the JSON text. *)
Definition dquote : string := String (Ascii.ascii_of_nat 34) EmptyString.

(** [create_heartbeat]: [Message(json.dumps({"status": status()}))], as
    the text the message carries. *)
Definition create_heartbeat (g : ExampleThread.globals) : pyval :=
  VStr (String.append "{"
       (String.append dquote
       (String.append "status"
       (String.append dquote
       (String.append ": "
       (String.append dquote
       (String.append (ExampleThread.status g)
       (String.append dquote "}")))))))).

(** [heartbeat_task]: the messages it puts, in order, over the clock
    reading and the globals of each of its turns. *)
Fixpoint heartbeat_task (heartbeat_interval : Q) (last_time : Q)
    (ticks : list (Q * ExampleThread.globals)) : list pyval :=
  match ticks with
  | [] => []
  | (now, g) :: rest =>
      if negb (ExampleThread.STOP_HEARTBEAT g) then
        if Qle_bool heartbeat_interval (now - last_time) then
          VList [VStr (ExampleThread.MSGTYPE 0); create_heartbeat g]
            :: heartbeat_task heartbeat_interval now rest
        else heartbeat_task heartbeat_interval last_time rest
      else heartbeat_task heartbeat_interval last_time rest
  end.


End ExampleThreadRest.

(* ===================================================================== *)
(** ** azure-iot-thread-simple.py: sender, heartbeat, configuration *)
(* ===================================================================== *)

Module ThreadSimpleRest.

Definition led_status (led_used : bool) : string :=
  if led_used then "BUSY" else "READY".

(** [slave_status]: the ping is made only with an address configured. *)
Definition slave_status (slave_ip_address : string)
    (o : Network.ping_outcome) : string :=
  if String.eqb slave_ip_address "" then "NOT_CONFIGURED"
  else if Network.ping o then "CONNECTED"
  else "NOT_CONNECTED".

Definition create_heartbeat (slave_ip_address : string)
    (o : Network.ping_outcome) (led_used : bool) : pyval :=
  VDict [("SlaveStatus", VStr (slave_status slave_ip_address o));
         ("LedStatus", VStr (led_status led_used))].

(** What a turn of [heartbeat_task] sees: the clock, SLAVE_CONFIG's
    address, what a ping would meet, LED_USED. *)
Record tick : Type := {
  now : Q;
  ip : string;
  pinged : Network.ping_outcome;
  led_used : bool
}.

Fixpoint heartbeat_task (heartbeat_interval : Q) (last_time : Q)
    (ticks : list tick) : list pyval :=
  match ticks with
  | [] => []
  | t :: rest =>
      if Qle_bool heartbeat_interval (now t - last_time) then
        MyAzure.create_telementry_message_pair
          (create_heartbeat (ip t) (pinged t) (led_used t))
          :: heartbeat_task heartbeat_interval (now t) rest
      else heartbeat_task heartbeat_interval last_time rest
  end.

Section Conversions.

Variable int_ : pyval -> res Z.

(** [parse_heartbeat_config]: the state is HEARTBEAT_INTERVAL_SEC. *)
Definition parse_heartbeat_config (config : pyval) : M Q unit :=
  current <- gets (fun h => h) ;;
  v <- lift (get config "heartbeat_interval_sec" (VNum current)) ;;
  interval <- lift (int_ v) ;;
  if Z.leb interval 0 then modify (fun _ => inject_Z interval)
  else ret tt.

End Conversions.

(** SLAVE_CONFIG *)
Record slave_config : Type := {
  num : pyval;
  power_off_delay_sec : Q;
  relay_gpio_line : Z;
  slave_ip_address : pyval
}.

Definition set_num (n : pyval) : M slave_config unit :=
  modify (fun c => {| num := n;
                      power_off_delay_sec := power_off_delay_sec c;
                      relay_gpio_line := relay_gpio_line c;
                      slave_ip_address := slave_ip_address c |}).

Definition set_power_off_delay_sec (d : Q) : M slave_config unit :=
  modify (fun c => {| num := num c;
                      power_off_delay_sec := d;
                      relay_gpio_line := relay_gpio_line c;
                      slave_ip_address := slave_ip_address c |}).

Definition set_relay_gpio_line (l : Z) : M slave_config unit :=
  modify (fun c => {| num := num c;
                      power_off_delay_sec := power_off_delay_sec c;
                      relay_gpio_line := l;
                      slave_ip_address := slave_ip_address c |}).

Definition set_slave_ip_address (a : pyval) : M slave_config unit :=
  modify (fun c => {| num := num c;
                      power_off_delay_sec := power_off_delay_sec c;
                      relay_gpio_line := relay_gpio_line c;
                      slave_ip_address := a |}).

Section SlaveConfig.

(** Python's built-ins [int], [float] and [str], and what the scan
    [find_ip_mac_only.find_vendor_ips_in_subnet("")] comes to: an
    address, [""], [None], or a raise. *)
Variable int_ : pyval -> res Z.
Variable float_ : pyval -> res Q.
Variable str : pyval -> string.
Variable find_vendor_ips_in_subnet : res pyval.

Definition parse_slave_config (config : pyval) : M slave_config unit :=
  c0 <- gets (fun c => c) ;;
  n <- lift (get config "num" (num c0)) ;;
  bad_num <- lift (lt_zero n) ;;
  (if bad_num then set_num n else ret tt) ;;
  p <- lift (get config "power_off_delay_sec"
               (VNum (power_off_delay_sec c0))) ;;
  delay <- lift (float_ p) ;;
  (if negb (Qle_bool 0 delay) then set_power_off_delay_sec delay
   else ret tt) ;;
  l <- lift (get config "relay_gpio_line"
               (VNum (inject_Z (relay_gpio_line c0)))) ;;
  line <- lift (int_ l) ;;
  (if Z.ltb line 0 then set_relay_gpio_line line else ret tt) ;;
  a <- lift (get config "slave_ip_address" (slave_ip_address c0)) ;;
  let ip := str a in
  if String.eqb ip "" then
    search <- lift (get config "search_for_slave_ip_address" (VBool false)) ;;
    found <- (if truthy search then lift find_vendor_ips_in_subnet
              else ret (VStr ip)) ;;
    set_slave_ip_address found
  else ret tt.

End SlaveConfig.

(** One turn of the loop of [sender_task], after [send_queue.get()]. *)
Definition sender_body (sl : slice) (msg : pyval) : M world unit :=
  Network.wait_until_connected (probes_failed sl) ;;
  ok <- MyAzure.connect_to_iot_hub (handshake_ok sl) ;;
  if negb ok then
    sleep 5 ;;
    put msg
  else
    try_except
      (MyAzure.send_with_timeout (delivery sl) msg ;; ret tt)
      (fun _ => sleep 5 ;; put msg) ;;
    sleep (1 # 10).

Fixpoint sender_task (slices : list slice) : M world unit :=
  match slices with
  | [] => ret tt
  | sl :: rest =>
      q <- gets (fun w => send_queue w ++ arrivals sl) ;;
      match q with
      | [] => sender_task rest
      | msg :: q' =>
          set_queue q' ;;
          sender_body sl msg ;;
          sender_task rest
      end
  end.

End ThreadSimpleRest.

(* ===================================================================== *)
(** ** Vocabulary of the statements *)
(* ===================================================================== *)


(** A message as the producers of azure-iot-example_thread.py build it:
    [[MSGTYPE[0], payload]] or [[MSGTYPE[1], payload]]. *)
Definition producer_msg (m : pyval) : Prop :=
  exists body,
    m = VList [VStr (ExampleThread.MSGTYPE 0); body] \/
    m = VList [VStr (ExampleThread.MSGTYPE 1); body].

(** The call that delivering a message asks of the client. *)
Definition request_of (m : pyval) : list call :=
  match m with
  | VList [VStr k; body] =>
      if String.eqb k (ExampleThread.MSGTYPE 0) then [SendMessage body]
      else if String.eqb k (ExampleThread.MSGTYPE 1)
           then [PatchTwinReportedProperties body]
           else []
  | _ => []
  end.


(** The body of a dispatcher response with the given status and code. *)
Definition response_body (status : string) (code : Z) : pyval :=
  VDict [("status", VStr status); ("code", VNum (inject_Z code))].

Definition disconnected : world :=
  {| send_queue := []; connected := false; log := [] |}.

Definition default_config : ExampleThread.config :=
  {| ExampleThread.interval_sec := 10;
     ExampleThread.check_interval_sec := 5;
     ExampleThread.send_retry_interval_sec := 5;
     ExampleThread.relay_gpio_line := 17;
     ExampleThread.power_off_delay_sec := 5 |}.

(** The events of the wait for the network. *)
Fixpoint probe_log (cfg : ExampleThread.config) (failed : nat) : list event :=
  match failed with
  | O => [EvProbe true]
  | S failed' =>
      EvProbe false :: EvSleep (ExampleThread.check_interval_sec cfg)
        :: probe_log cfg failed'
  end.

(** The routed handler raises on this request. *)
Definition raises_in_example (req : method_request) : Prop :=
  exists e d, snd (ExampleThread.route (name req) (payload req) d) = Raise e.

Definition raises_in_simple (str : pyval -> string) (req : method_request)
  : Prop :=
  exists e d,
    snd (ThreadSimple.route str (name req) (payload req) d) = Raise e.

(** [r] is the response to [req]: it carries the request's token, and it
    is the "error"/500 response whenever the handler raised. *)
Definition answers (raised : method_request -> Prop)
    (req : method_request) (r : method_response) : Prop :=
  resp_request_id r = request_id req /\
  (raised req ->
   resp_status r = 500%Z /\ resp_payload r = response_body "error" 500).

(** Steps still to take, over both threads. *)
Definition remaining (s : Tasks.sys) : nat :=
  (List.length (Tasks.main s) + List.length (Tasks.worker s))%nat.

(** The flag after a sequence of steps. *)
Definition settle (b : bool) (t : list action) : bool :=
  fold_left (fun b a => Tasks.perform a b) t b.

(** The steps of [restart_slave_task] when the relay line is granted:
    flag down, the requested delay, the power cycle, flag up. *)
Definition restart_steps (cfg : ExampleThread.config) (dl : Q) : list action :=
  [ASetReady false; ASleep dl;
   ARequestLine (ExampleThread.relay_gpio_line cfg);
   ARelay true; ASleep (ExampleThread.power_off_delay_sec cfg); ARelay false;
   ASetReady true].

Definition is_none (v : pyval) : bool :=
  match v with VNone => true | _ => false end.
Definition is_delivered (o : outcome) : bool :=
  match o with Delivered => true | _ => false end.
Definition sent_as (o : outcome) (calls : list call) (w : world) : world :=
  {| send_queue := send_queue w; connected := connected w;
     log := log w ++ map (fun c => EvSubmit c o) calls |}.
Definition send_result (o : outcome) (message : pyval) (calls : list call)
    (r : res bool) : Prop :=
  match r with
  | Ret b =>
      b = (is_none message
           || (match calls with [] => false | _ => true end && is_delivered o))
  | Raise _ => calls = []
  end.

(** The calls of a log that were handed to the client, whatever became
    of them. *)
Fixpoint submitted (l : list event) : list call :=
  match l with
  | [] => []
  | EvSubmit c _ :: rest => c :: submitted rest
  | _ :: rest => submitted rest
  end.


(** A message as my_azure.py builds it. *)
Definition azure_msg (m : pyval) : Prop :=
  exists body,
    m = MyAzure.create_telementry_message_pair body \/
    m = MyAzure.create_property_message_pair body.

(** The call that delivering such a message asks of the client. *)
Definition azure_request_of (m : pyval) : list call :=
  match subscript_str m "type", subscript_str m "msg" with
  | Ret k, Ret body =>
      if eq_str k (MyAzure.MSGTYPE 0) then [SendMessage body]
      else if eq_str k (MyAzure.MSGTYPE 1)
           then [PatchTwinReportedProperties body]
           else []
  | _, _ => []
  end.

(** Consecutive clock readings at least [d] apart, the first one at least
    [d] after [last]. *)
Fixpoint spaced (d last : Q) (times : list Q) : Prop :=
  match times with
  | [] => True
  | t :: rest => d <= t - last /\ spaced d t rest
  end.

(** A clock that does not go back. *)
Fixpoint nondecreasing (last : Q) (times : list Q) : Prop :=
  match times with
  | [] => True
  | t :: rest => last <= t /\ nondecreasing t rest
  end.

(** [l1] is [l2] with some elements left out. *)
Inductive sublist {A : Type} : list A -> list A -> Prop :=
| sublist_nil : sublist [] []
| sublist_skip : forall x l1 l2, sublist l1 l2 -> sublist l1 (x :: l2)
| sublist_take : forall x l1 l2, sublist l1 l2 -> sublist (x :: l1) (x :: l2).

(** The steps [restart_slave_task] takes for a delay it has clamped to
    [dl]: it stops short where [time.sleep] refuses a time or the
    hardware the relay line. *)
Definition restart_trace (cfg : ExampleThread.config) (line_ok : bool)
    (dl : Q) : list action :=
  ASetReady false ::
  (if sleep_accepted dl then
     ASleep dl :: ARequestLine (ExampleThread.relay_gpio_line cfg) ::
     (if line_ok then
        ARelay true ::
        (if sleep_accepted (ExampleThread.power_off_delay_sec cfg) then
           [ASleep (ExampleThread.power_off_delay_sec cfg); ARelay false;
            ASetReady true]
         else [])
      else [])
   else []).

(** How many turns of a Sender loop take a message, from the length of
    the queue and what arrives before each turn: a turn takes one unless
    it finds nothing queued. *)
Fixpoint served (queued : nat) (slices : list slice) : nat :=
  match slices with
  | [] => O
  | sl :: rest =>
      match (queued + List.length (arrivals sl))%nat with
      | O => served O rest
      | S others => S (served others rest)
      end
  end.



(** The ticks of a periodic producer that fire, for the interval [d] and
    the time [last] of the previous firing: a tick fires exactly when at
    least [d] has passed since. *)
Inductive fires {A : Type} (d : Q)
  : Q -> list (Q * A) -> list (Q * A) -> Prop :=
| fires_done : forall last, fires d last [] []
| fires_put : forall last now x rest fired,
    d <= now - last ->
    fires d now rest fired ->
    fires d last ((now, x) :: rest) ((now, x) :: fired)
| fires_wait : forall last now x rest fired,
    now - last < d ->
    fires d last rest fired ->
    fires d last ((now, x) :: rest) fired.

(** Is the relay left switched on after these steps? *)
Definition relay_left_on (t : list action) : bool :=
  fold_left (fun on a => match a with ARelay b => b | _ => on end) t false.


(* ===================================================================== *)
(** ** Readiness state *)
(* ===================================================================== *)

Section Readiness.
Import ExampleThread.

(** C5. [status()] depends on the globals only through the pair
    (ERROR_STATE, SLAVE_READY_STATE), and reads it in priority order:
    an error gives "Error"; otherwise a slave that is not ready gives
    "AwaitingSlave" (the spec's AwaitingActuator label); otherwise "Ready". *)
Theorem status_pure_priority (g1 g2 : globals) :
  ERROR_STATE g1 = ERROR_STATE g2 ->
  SLAVE_READY_STATE g1 = SLAVE_READY_STATE g2 ->
  status g1 = status g2 /\
  status g1 = (if ERROR_STATE g1 then "Error"
               else if SLAVE_READY_STATE g1 then "Ready"
               else "AwaitingSlave").
Proof.
  intros He Hr. unfold status. rewrite He, Hr.
  split; [reflexivity|].
  destruct (ERROR_STATE g2), (SLAVE_READY_STATE g2); reflexivity.
Qed.

Lemma status_pure_priority_witness :
  status {| SLAVE_READY_STATE := false; ERROR_STATE := false;
            STOP_HEARTBEAT := false |}
  = status {| SLAVE_READY_STATE := false; ERROR_STATE := false;
              STOP_HEARTBEAT := true |}
  /\ status {| SLAVE_READY_STATE := false; ERROR_STATE := false;
               STOP_HEARTBEAT := false |} = "AwaitingSlave".
Proof.
  apply (status_pure_priority
           {| SLAVE_READY_STATE := false; ERROR_STATE := false;
              STOP_HEARTBEAT := false |}
           {| SLAVE_READY_STATE := false; ERROR_STATE := false;
              STOP_HEARTBEAT := true |}); reflexivity.
Defined.

End Readiness.

(* ===================================================================== *)
(** ** Connection Manager: send and connect *)
(* ===================================================================== *)

Section Send.

(** C9. With [None] for a message, [send_with_timeout] returns [True] and
    leaves the world as it was: nothing is submitted to the client. *)
Theorem send_none_is_success (o : outcome) (w : world) :
  ExampleThread.send_with_timeout o VNone w = (w, Ret true) /\
  MyAzure.send_with_timeout o VNone w = (w, Ret true).
Proof. split; reflexivity. Qed.

(** C10, as stated, fails: a list message of kind "alarm" makes
    [send_with_timeout] return [False]; no exception leaves the call. *)
Lemma unknown_kind_no_exception :
  ExampleThread.send_with_timeout Delivered
    (VList [VStr "alarm"; VNum 1]) disconnected
  = (disconnected, Ret false).
Proof. reflexivity. Qed.

(** C10, amended. A message that is not [None], has a kind (its element 0
    in azure-iot-example_thread.py, its "type" entry in my_azure.py) and
    whose kind is neither of the two of [MSGTYPE], makes [send_with_timeout]
    return [False] with nothing submitted: the unbound [future] is an
    error raised inside the [try], which [except Exception] turns into
    [False]. *)
Theorem unknown_kind_returns_false (o : outcome) (w : world) :
  (forall message kind,
     message <> VNone ->
     subscript_int message 0 = Ret kind ->
     eq_str kind (ExampleThread.MSGTYPE 0) = false ->
     eq_str kind (ExampleThread.MSGTYPE 1) = false ->
     ExampleThread.send_with_timeout o message w = (w, Ret false))
  /\
  (forall message kind,
     message <> VNone ->
     subscript_str message "type" = Ret kind ->
     eq_str kind (MyAzure.MSGTYPE 0) = false ->
     eq_str kind (MyAzure.MSGTYPE 1) = false ->
     MyAzure.send_with_timeout o message w = (w, Ret false)).
Proof.
  split; intros message kind Hnone Hk H0 H1.
  - unfold ExampleThread.send_with_timeout.
    destruct message; try congruence;
      rewrite Hk; cbv [bind lift]; rewrite H0; cbv beta iota;
      rewrite H1; reflexivity.
  - unfold MyAzure.send_with_timeout.
    destruct message; try congruence;
      rewrite Hk; cbv [bind lift]; rewrite H0; cbv beta iota;
      rewrite H1; reflexivity.
Qed.

Lemma unknown_kind_returns_false_witness :
  ExampleThread.send_with_timeout (Failed "closed")
    (VList [VStr "alarm"; VNum 1]) disconnected = (disconnected, Ret false)
  /\
  MyAzure.send_with_timeout (Failed "closed")
    (VDict [("type", VStr "telemetry"); ("msg", VNum 1)]) disconnected
  = (disconnected, Ret false).
Proof.
  split.
  - apply (proj1 (unknown_kind_returns_false (Failed "closed") disconnected)
             (VList [VStr "alarm"; VNum 1]) (VStr "alarm"));
      [discriminate | reflexivity | reflexivity | reflexivity].
  - apply (proj2 (unknown_kind_returns_false (Failed "closed") disconnected)
             (VDict [("type", VStr "telemetry"); ("msg", VNum 1)])
             (VStr "telemetry"));
      [discriminate | reflexivity | reflexivity | reflexivity].
Defined.

(** A message of a known kind is submitted, and the result of the call is
    whether the client completed it in time. *)
Lemma send_known_kind (o : outcome) (body : pyval) (w : world) :
  ExampleThread.send_with_timeout o
    (VList [VStr (ExampleThread.MSGTYPE 0); body]) w
  = ({| send_queue := send_queue w; connected := connected w;
        log := log w ++ [EvSubmit (SendMessage body) o] |},
     Ret (match o with Delivered => true | _ => false end))
  /\
  ExampleThread.send_with_timeout o
    (VList [VStr (ExampleThread.MSGTYPE 1); body]) w
  = ({| send_queue := send_queue w; connected := connected w;
        log := log w ++ [EvSubmit (PatchTwinReportedProperties body) o] |},
     Ret (match o with Delivered => true | _ => false end)).
Proof. split; destruct o; reflexivity. Qed.

(** An established session is left alone: no handshake, [True]. *)
Lemma connect_when_connected (handshake : bool) (w : world) :
  connected w = true ->
  ExampleThread.connect_to_iot_hub handshake w = (w, Ret true) /\
  MyAzure.connect_to_iot_hub handshake w = (w, Ret true).
Proof.
  intros Hc.
  unfold ExampleThread.connect_to_iot_hub, MyAzure.connect_to_iot_hub.
  cbv [bind gets]. rewrite Hc. split; reflexivity.
Qed.

(** A handshake that succeeds marks the session connected, [True]. *)
Lemma connect_handshake_success (w : world) :
  connected w = false ->
  ExampleThread.connect_to_iot_hub true w
  = ({| send_queue := send_queue w; connected := true;
        log := log w ++ [EvConnect true] |}, Ret true) /\
  MyAzure.connect_to_iot_hub true w
  = ({| send_queue := send_queue w; connected := true;
        log := log w ++ [EvConnect true] |}, Ret true).
Proof.
  intros Hc.
  unfold ExampleThread.connect_to_iot_hub, MyAzure.connect_to_iot_hub.
  cbv [bind gets]. rewrite Hc. split; reflexivity.
Qed.

(** C2 at a disconnected client whose handshake fails: the call of
    my_azure.py sleeps the reconnect interval and returns [True]; the call
    of azure-iot-example_thread.py leaves with a [NameError]. Neither
    returns [False], the answer its callers test for. *)
Theorem connect_failure_is_not_reported :
  MyAzure.connect_to_iot_hub false disconnected
  = ({| send_queue := []; connected := false;
        log := [EvConnect false; EvSleep MyAzure.RECONNECT_INTERVAL] |},
     Ret true)
  /\
  ExampleThread.connect_to_iot_hub false disconnected
  = ({| send_queue := []; connected := false; log := [EvConnect false] |},
     Raise NameError).
Proof. split; reflexivity. Qed.

End Send.

(* ===================================================================== *)
(** ** Sender *)
(* ===================================================================== *)

Section Sender.
Import ExampleThread.

Variable cfg : config.

(** C1 at a message whose delivery times out, and at one whose delivery
    the client refuses: [send_with_timeout] answers [False], the loop of
    [sender_task] does not look at the answer, and the message is gone
    from the queue with no retry sleep; the next message is untouched. *)
Theorem sender_drops_failed_message :
  sender_task default_config
    [{| arrivals := []; probes_failed := 0; handshake_ok := true;
        delivery := TimedOut |}]
    {| send_queue := [VList [VStr "telemetry"; VNum 1];
                      VList [VStr "telemetry"; VNum 2]];
       connected := true; log := [] |}
  = ({| send_queue := [VList [VStr "telemetry"; VNum 2]];
        connected := true;
        log := [EvProbe true; EvSubmit (SendMessage (VNum 1)) TimedOut;
                EvSleep (1 # 10)] |}, Ret tt)
  /\
  sender_task default_config
    [{| arrivals := []; probes_failed := 0; handshake_ok := true;
        delivery := Failed "connection dropped" |}]
    {| send_queue := [VList [VStr "propertyUpdate"; VNum 1]];
       connected := true; log := [] |}
  = ({| send_queue := [];
        connected := true;
        log := [EvProbe true;
                EvSubmit (PatchTwinReportedProperties (VNum 1))
                         (Failed "connection dropped");
                EvSleep (1 # 10)] |}, Ret tt).
Proof. split; reflexivity. Qed.

(** The re-enqueue of [sender_task] is reached only by an exception that
    leaves [send_with_timeout], such as the [IndexError] of an empty list. *)
Example sender_requeues_on_exception :
  sender_task default_config
    [{| arrivals := []; probes_failed := 0; handshake_ok := true;
        delivery := Delivered |}]
    {| send_queue := [VList []; VList [VStr "telemetry"; VNum 2]];
       connected := true; log := [] |}
  = ({| send_queue := [VList [VStr "telemetry"; VNum 2]; VList []];
        connected := true;
        log := [EvProbe true; EvSleep 5; EvSleep (1 # 10)] |}, Ret tt).
Proof. reflexivity. Qed.

Lemma wait_for_network_spec (failed : nat) (w : world) :
  wait_for_network cfg failed w
  = ({| send_queue := send_queue w; connected := connected w;
        log := log w ++ probe_log cfg failed |}, Ret tt).
Proof.
  revert w. induction failed as [|n IH]; intros w.
  - reflexivity.
  - cbn [wait_for_network probe_log].
    unfold bind at 1. cbn [emit modify].
    unfold bind at 1. cbn [sleep emit modify].
    rewrite IH. cbn [send_queue connected log].
    rewrite <- !app_assoc. reflexivity.
Qed.



Lemma request_of_producer (m : pyval) :
  producer_msg m -> exists c, request_of m = [c].
Proof. intros [body [-> | ->]]; eexists; reflexivity. Qed.


(** One turn whose delivery fails, in general: the turn returns, and the
    message taken from the queue is not put back. *)
Lemma sender_body_failed_delivery (sl : slice) (m : pyval) (w : world) :
  handshake_ok sl = true -> delivery sl <> Delivered -> producer_msg m ->
  exists w',
    sender_body cfg sl m w = (w', Ret tt) /\
    send_queue w' = send_queue w.
Proof.
  intros Hh Hd [body Hm].
  unfold sender_body. unfold bind at 1. rewrite wait_for_network_spec.
  rewrite Hh.
  unfold bind at 1. unfold connect_to_iot_hub.
  cbv [bind gets connected].
  destruct w as [q c l]; cbn [send_queue connected log].
  destruct (delivery sl) as [| |reason]; [congruence| |];
    destruct c, Hm as [-> | ->]; cbn;
    (eexists; split; reflexivity).
Qed.

Lemma sender_task_cons (sl : slice) (rest : list slice) (w : world) :
  sender_task cfg (sl :: rest) w =
  match send_queue w ++ arrivals sl with
  | [] => sender_task cfg rest w
  | msg :: q' =>
      match sender_body cfg sl msg
              {| send_queue := q'; connected := connected w; log := log w |}
      with
      | (w2, Ret _) => sender_task cfg rest w2
      | (w2, Raise e) => (w2, Raise e)
      end
  end.
Proof.
  cbn [sender_task]. unfold bind at 1, gets.
  destruct (send_queue w ++ arrivals sl); reflexivity.
Qed.

(** What [sensor_task] puts are producer messages, one per due tick, in
    the order of the ticks. *)
Lemma sensor_task_producer (ticks : list (Q * pyval)) :
  forall last_time, Forall producer_msg (sensor_task cfg last_time ticks).
Proof.
  induction ticks as [|[now body] ticks IH]; intros last_time;
    cbn [sensor_task].
  - constructor.
  - destruct (Qle_bool (interval_sec cfg) (now - last_time)).
    + constructor; [exists body; left; reflexivity | apply IH].
    + apply IH.
Qed.




End Sender.


(* ===================================================================== *)
(** ** Command dispatcher *)
(* ===================================================================== *)

Section Dispatcher.

Variable str : pyval -> string.

(** Routing either returns a status and a code without sending anything,
    or raises with the dispatcher state untouched. *)
Lemma example_route_cases (n : string) (p : pyval) :
  (forall d, exists d' sc,
      ExampleThread.route n p d = (d', Ret sc) /\
      ExampleThread.sent d' = ExampleThread.sent d /\
      In (snd sc) [200; 404]%Z)
  \/ (forall d, exists e, ExampleThread.route n p d = (d, Raise e)).
Proof.
  unfold ExampleThread.route, ExampleThread.restart_cmd.
  destruct (String.eqb n "restart").
  - destruct p; try (right; intros st; eexists; reflexivity).
    left; intros st; do 2 eexists; cbn.
    split; [reflexivity|]. split; [reflexivity|]. cbn; auto.
  - left; intros st; do 2 eexists.
    split; [reflexivity|]. split; [reflexivity|]. cbn; auto.
Qed.

Lemma simple_route_cases (n : string) (p : pyval) :
  (forall d, exists d' sc,
      ThreadSimple.route str n p d = (d', Ret sc) /\
      ThreadSimple.sent d' = ThreadSimple.sent d /\
      In (snd sc) (if String.eqb n "Stop" then [999] else [200; 404])%Z)
  \/ (String.eqb n "Stop" = false /\
      forall d, exists e, ThreadSimple.route str n p d = (d, Raise e)).
Proof.
  unfold ThreadSimple.route, ThreadSimple.restart_cmd,
    ThreadSimple.set_slave_ip_cmd, ThreadSimple.stop_cmd.
  destruct (String.eqb n "RestartSlave") eqn:E1.
  - apply String.eqb_eq in E1; subst n.
    destruct p;
      try (right; split; [reflexivity|]; intros st; eexists; reflexivity).
    left; intros st; do 2 eexists; cbn.
    split; [reflexivity|]. split; [reflexivity|]. cbn; auto.
  - destruct (String.eqb n "SetSlaveIP") eqn:E2.
    + apply String.eqb_eq in E2; subst n.
      destruct p;
        try (right; split; [reflexivity|]; intros st; eexists; reflexivity).
      left; intros st; do 2 eexists; cbn.
      split; [reflexivity|]. split; [reflexivity|]. cbn; auto.
    + destruct (String.eqb n "Stop") eqn:E3.
      * left; intros st; do 2 eexists; cbn.
        split; [reflexivity|]. split; [reflexivity|]. cbn; auto.
      * left; intros st; do 2 eexists.
        split; [reflexivity|]. split; [reflexivity|]. cbn; auto.
Qed.

(** One turn of either dispatcher sends one response, with the token of
    the request and a code from its table. *)
Lemma example_body_spec (req : method_request) (d : ExampleThread.dispatcher) :
  exists d' r,
    ExampleThread.command_processor_body req d = (d', Ret tt) /\
    ExampleThread.sent d' = ExampleThread.sent d ++ [r] /\
    answers raises_in_example req r /\
    In (resp_status r) [200; 404; 500]%Z.
Proof.
  unfold ExampleThread.command_processor_body, answers, raises_in_example.
  unfold bind, try_except.
  destruct (example_route_cases (name req) (payload req)) as [H | H].
  - destruct (H d) as [d' [sc [E [Hs Hin]]]]. rewrite E.
    do 2 eexists. split; [reflexivity|]. cbn. rewrite Hs.
    split; [reflexivity|]. split.
    + split; [reflexivity|]. intros [e [d0 He]].
      destruct (H d0) as [? [? [E0 _]]]. rewrite E0 in He. discriminate.
    + cbn in Hin. intuition.
  - destruct (H d) as [e E]. rewrite E.
    do 2 eexists. split; [reflexivity|]. cbn.
    split; [reflexivity|]. split; [|auto].
    split; [reflexivity|]. intros _. split; reflexivity.
Qed.

Lemma simple_body_spec (req : method_request) (d : ThreadSimple.dispatcher) :
  exists d' r,
    ThreadSimple.command_processor_body str req d = (d', Ret tt) /\
    ThreadSimple.sent d' = ThreadSimple.sent d ++ [r] /\
    answers (raises_in_simple str) req r /\
    In (resp_status r)
       (if String.eqb (name req) "Stop" then [999] else [200; 404; 500])%Z.
Proof.
  unfold ThreadSimple.command_processor_body, answers, raises_in_simple.
  unfold bind, try_except.
  destruct (simple_route_cases (name req) (payload req)) as [H | [Hn H]].
  - destruct (H d) as [d' [sc [E [Hs Hin]]]]. rewrite E.
    do 2 eexists. split; [reflexivity|]. cbn. rewrite Hs.
    split; [reflexivity|]. split.
    + split; [reflexivity|]. intros [e [d0 He]].
      destruct (H d0) as [? [? [E0 _]]]. rewrite E0 in He. discriminate.
    + destruct (String.eqb (name req) "Stop"); cbn in Hin |- *; intuition.
  - destruct (H d) as [e E]. rewrite E, Hn.
    do 2 eexists. split; [reflexivity|]. cbn.
    split; [reflexivity|]. split; [|auto].
    split; [reflexivity|]. intros _. split; reflexivity.
Qed.

Lemma example_task_spec (reqs : list method_request) :
  forall d,
    snd (ExampleThread.command_processor_task reqs d) = Ret tt /\
    exists rs,
      ExampleThread.sent (fst (ExampleThread.command_processor_task reqs d))
      = ExampleThread.sent d ++ rs /\
      Forall2 (answers raises_in_example) reqs rs.
Proof.
  induction reqs as [|req reqs IH]; intros d.
  - split; [reflexivity|]. exists []. cbn. rewrite app_nil_r.
    split; [reflexivity | constructor].
  - cbn [ExampleThread.command_processor_task]. unfold bind.
    destruct (example_body_spec req d) as [d' [r [E [Hs [Ha _]]]]].
    rewrite E. cbv beta iota. destruct (IH d') as [R [rs [Hrs HF]]].
    split; [exact R|]. exists (r :: rs).
    rewrite Hrs, Hs, <- app_assoc.
    split; [reflexivity | constructor; assumption].
Qed.

Lemma simple_task_spec (reqs : list method_request) :
  forall d,
    snd (ThreadSimple.command_processor_task str reqs d) = Ret tt /\
    exists rs,
      ThreadSimple.sent (fst (ThreadSimple.command_processor_task str reqs d))
      = ThreadSimple.sent d ++ rs /\
      Forall2 (answers (raises_in_simple str)) reqs rs.
Proof.
  induction reqs as [|req reqs IH]; intros d.
  - split; [reflexivity|]. exists []. cbn. rewrite app_nil_r.
    split; [reflexivity | constructor].
  - cbn [ThreadSimple.command_processor_task]. unfold bind.
    destruct (simple_body_spec req d) as [d' [r [E [Hs [Ha _]]]]].
    rewrite E. cbv beta iota. destruct (IH d') as [R [rs [Hrs HF]]].
    split; [exact R|]. exists (r :: rs).
    rewrite Hrs, Hs, <- app_assoc.
    split; [reflexivity | constructor; assumption].
Qed.

(** C3. Over any run of requests, each dispatcher sends exactly the
    responses [rs], one per request consumed and in the order consumed,
    each with the token of its request; the response to a request whose
    handler raised is the "error"/500 one; and the loop itself never
    leaves with an exception: the requests after a failing one are
    answered too. *)
Theorem one_response_per_request
    (reqs : list method_request)
    (d1 : ExampleThread.dispatcher) (d2 : ThreadSimple.dispatcher) :
  (snd (ExampleThread.command_processor_task reqs d1) = Ret tt /\
   exists rs,
     ExampleThread.sent (fst (ExampleThread.command_processor_task reqs d1))
     = ExampleThread.sent d1 ++ rs /\
     Forall2 (answers raises_in_example) reqs rs)
  /\
  (snd (ThreadSimple.command_processor_task str reqs d2) = Ret tt /\
   exists rs,
     ThreadSimple.sent (fst (ThreadSimple.command_processor_task str reqs d2))
     = ThreadSimple.sent d2 ++ rs /\
     Forall2 (answers (raises_in_simple str)) reqs rs).
Proof. split; [apply example_task_spec | apply simple_task_spec]. Qed.

(** C4, amended. Each request gets one response, with the token of the
    request; its code is 200, 404 or 500, except for the "Stop" command of
    azure-iot-thread-simple.py, whose handler answers 999. *)
Theorem response_code_and_token
    (req : method_request)
    (d1 : ExampleThread.dispatcher) (d2 : ThreadSimple.dispatcher) :
  (exists r,
     ExampleThread.sent (fst (ExampleThread.command_processor_body req d1))
     = ExampleThread.sent d1 ++ [r] /\
     resp_request_id r = request_id req /\
     In (resp_status r) [200; 404; 500]%Z)
  /\
  (exists r,
     ThreadSimple.sent (fst (ThreadSimple.command_processor_body str req d2))
     = ThreadSimple.sent d2 ++ [r] /\
     resp_request_id r = request_id req /\
     In (resp_status r)
        (if String.eqb (name req) "Stop" then [999]
         else [200; 404; 500])%Z).
Proof.
  split.
  - destruct (example_body_spec req d1) as [d' [r [E [Hs [[Ht _] Hc]]]]].
    exists r. rewrite E. auto.
  - destruct (simple_body_spec req d2) as [d' [r [E [Hs [[Ht _] Hc]]]]].
    exists r. rewrite E. auto.
Qed.

(** C7. A request whose name is not in the routing table is answered, in
    the same turn, with status "Unknown command" and code 404, whatever
    its payload; no thread is started and no setting is written, so no
    handler ran. *)
Theorem unknown_command_404 (req : method_request) :
  (forall d,
     name req <> "restart" ->
     ExampleThread.command_processor_body req d
     = ({| ExampleThread.threads := ExampleThread.threads d;
           ExampleThread.sent :=
             ExampleThread.sent d
             ++ [create_from_method_request req 404
                   (response_body "Unknown command" 404)] |}, Ret tt))
  /\
  (forall d,
     name req <> "RestartSlave" ->
     name req <> "SetSlaveIP" ->
     name req <> "Stop" ->
     ThreadSimple.command_processor_body str req d
     = ({| ThreadSimple.slave_ip_address := ThreadSimple.slave_ip_address d;
           ThreadSimple.threads := ThreadSimple.threads d;
           ThreadSimple.sent :=
             ThreadSimple.sent d
             ++ [create_from_method_request req 404
                   (response_body "Unknown command" 404)] |}, Ret tt)).
Proof.
  split.
  - intros d H. apply String.eqb_neq in H.
    unfold ExampleThread.command_processor_body, ExampleThread.route.
    rewrite H. reflexivity.
  - intros d H1 H2 H3.
    apply String.eqb_neq in H1, H2, H3.
    unfold ThreadSimple.command_processor_body, ThreadSimple.route.
    rewrite H1, H2, H3. reflexivity.
Qed.

End Dispatcher.

(** A restart request without a dict for a payload makes the handler
    raise; it is answered with 500 and the next request is served. *)
Example dispatcher_survives_handler_error :
  ExampleThread.command_processor_task
    [{| name := "restart"; payload := VNone; request_id := "7" |};
     {| name := "restart"; payload := VDict [("delay", VNum 2)];
        request_id := "8" |}]
    {| ExampleThread.threads := []; ExampleThread.sent := [] |}
  = ({| ExampleThread.threads := [ExampleThread.RestartSlaveTask (VNum 2)];
        ExampleThread.sent :=
          [create_from_method_request
             {| name := "restart"; payload := VNone; request_id := "7" |}
             500 (response_body "error" 500);
           create_from_method_request
             {| name := "restart"; payload := VDict [("delay", VNum 2)];
                request_id := "8" |}
             200 (response_body "restarted" 200)] |}, Ret tt)
  /\ raises_in_example
       {| name := "restart"; payload := VNone; request_id := "7" |}.
Proof.
  split; [reflexivity|].
  exists AttributeError,
    {| ExampleThread.threads := []; ExampleThread.sent := [] |}.
  reflexivity.
Qed.

(** C4, as stated, fails: the response to "Stop" carries 999, which is
    none of 200, 404, 500 and not a 2xx code. *)
Lemma stop_is_answered_999 :
  map resp_status
    (ThreadSimple.sent
       (fst (ThreadSimple.command_processor_body (fun _ => "")
               {| name := "Stop"; payload := VNone; request_id := "42" |}
               {| ThreadSimple.slave_ip_address := "";
                  ThreadSimple.threads := [];
                  ThreadSimple.sent := [] |})))
  = [999%Z]
  /\ ~ In 999%Z [200; 404; 500]%Z
  /\ ~ (200 <= 999 < 300)%Z.
Proof.
  split; [reflexivity|]. split.
  - cbn. intros [H | [H | [H | []]]]; discriminate.
  - lia.
Qed.

Lemma unknown_command_404_witness :
  let req := {| name := "doesNotExist";
                payload := VDict [("delay", VNum 3)];
                request_id := "9" |} in
  ExampleThread.command_processor_body req
    {| ExampleThread.threads := []; ExampleThread.sent := [] |}
  = ({| ExampleThread.threads := [];
        ExampleThread.sent :=
          [create_from_method_request req 404
             (response_body "Unknown command" 404)] |}, Ret tt)
  /\
  ThreadSimple.command_processor_body (fun _ => "") req
    {| ThreadSimple.slave_ip_address := "10.0.0.7";
       ThreadSimple.threads := []; ThreadSimple.sent := [] |}
  = ({| ThreadSimple.slave_ip_address := "10.0.0.7";
        ThreadSimple.threads := [];
        ThreadSimple.sent :=
          [create_from_method_request req 404
             (response_body "Unknown command" 404)] |}, Ret tt).
Proof.
  intros req. split.
  - apply (proj1 (unknown_command_404 (fun _ => "") req)
             {| ExampleThread.threads := []; ExampleThread.sent := [] |}).
    discriminate.
  - apply (proj2 (unknown_command_404 (fun _ => "") req)
             {| ThreadSimple.slave_ip_address := "10.0.0.7";
                ThreadSimple.threads := []; ThreadSimple.sent := [] |});
      discriminate.
Defined.

(* ===================================================================== *)
(** ** Restart: the response and the readiness flag *)
(* ===================================================================== *)

Section Restart.
Import Tasks.

Lemma run_steps (schedule : list bool) : forall s, steps s (run schedule s).
Proof.
  induction schedule as [|[|] rest IH]; intros s; cbn [run].
  - constructor.
  - destruct (main s) as [|a pc] eqn:E; [apply IH|].
    eapply steps_next; [apply (step_main s a pc E) | apply IH].
  - destruct (worker s) as [|a pc] eqn:E; [apply IH|].
    eapply steps_next; [apply (step_worker s a pc E) | apply IH].
Qed.

Lemma settle_skips_responses (t : list action) :
  forall b,
    settle b t = settle b (filter (fun a => negb (is_respond a)) t).
Proof.
  unfold settle.
  induction t as [|a t IH]; intros b; [reflexivity|].
  destruct a; cbn; apply IH.
Qed.

(** A run only moves steps from the two programs to the trace, each
    program in its own order, and the flag follows the trace. *)
Lemma steps_split (s0 s : sys) :
  steps s0 s ->
  Forall (fun a => is_respond a = true) (main s0) ->
  Forall (fun a => is_respond a = false) (worker s0) ->
  exists t,
    trace s = trace s0 ++ t /\
    ready s = settle (ready s0) t /\
    filter is_respond t ++ main s = main s0 /\
    filter (fun a => negb (is_respond a)) t ++ worker s = worker s0.
Proof.
  induction 1 as [s | s s' s'' Hstep Hsteps IH]; intros Hm Hw.
  - exists []. rewrite app_nil_r. repeat split; reflexivity.
  - destruct Hstep as [s a pc E | s a pc E].
    + rewrite E in Hm. inversion Hm as [|? ? Ha Hpc]; subst.
      destruct (IH Hpc Hw) as [t [Ht [Hr [Hfm Hfw]]]].
      cbn [trace ready main worker] in *.
      exists (a :: t). rewrite Ht, <- app_assoc.
      split; [reflexivity|]. split; [exact Hr|].
      cbn [filter]. rewrite Ha. cbn [negb app].
      rewrite Hfm, E. split; [reflexivity | exact Hfw].
    + rewrite E in Hw. inversion Hw as [|? ? Ha Hpc]; subst.
      destruct (IH Hm Hpc) as [t [Ht [Hr [Hfm Hfw]]]].
      cbn [trace ready main worker] in *.
      exists (a :: t). rewrite Ht, <- app_assoc.
      split; [reflexivity|]. split; [exact Hr|].
      cbn [filter]. rewrite Ha. cbn [negb app].
      rewrite Hfw, E. split; [exact Hfm | reflexivity].
Qed.

Lemma step_decreases (s s' : sys) :
  step s s' -> (remaining s' < remaining s)%nat.
Proof.
  intros [s0 a pc E | s0 a pc E]; unfold remaining;
    cbn [main worker]; rewrite E; cbn [List.length]; lia.
Qed.

Lemma progress (s : sys) : terminal s \/ exists s', step s s'.
Proof.
  unfold terminal.
  destruct (main s) as [|a pc] eqn:Em.
  - destruct (worker s) as [|b pc'] eqn:Ew.
    + left; split; reflexivity.
    + right; eexists; apply (step_worker s b pc' Ew).
  - right; eexists; apply (step_main s a pc Em).
Qed.

(** The steps of the task when [time.sleep] takes both of its times and
    the relay line is granted. *)
Lemma restart_program_accepted
    (cfg : ExampleThread.config) (delay_sec : pyval) (dl : Q) :
  ExampleThread.clamp_delay delay_sec = Ret dl ->
  sleep_accepted dl = true ->
  sleep_accepted (ExampleThread.power_off_delay_sec cfg) = true ->
  program (ExampleThread.restart_slave_task cfg true delay_sec)
  = restart_steps cfg dl.
Proof.
  intros Hd Hdl Hoff.
  apply andb_true_iff in Hdl as [Hd0 Hd1].
  apply andb_true_iff in Hoff as [Ho0 Ho1].
  unfold program, ExampleThread.restart_slave_task.
  cbv [bind lift ret raise act modify task_sleep Slave.init
       Slave.power_cycle].
  rewrite Hd. cbv beta iota.
  rewrite Hd0, Hd1. cbv beta iota delta [negb].
  rewrite Ho0, Ho1. reflexivity.
Qed.

Lemma after_start_restart
    (cfg : ExampleThread.config) (flag : bool) (req : method_request)
    (pd : list (string * pyval)) (dl : Q) :
  name req = "restart" ->
  payload req = VDict pd ->
  ExampleThread.clamp_delay
    (match lookup "delay" pd with Some v => v | None => VNum 0 end) = Ret dl ->
  sleep_accepted dl = true ->
  sleep_accepted (ExampleThread.power_off_delay_sec cfg) = true ->
  after_start cfg true flag req
  = {| ready := flag; trace := [];
       main := [ARespond (create_from_method_request req 200
                            (response_body "restarted" 200))];
       worker := restart_steps cfg dl |}.
Proof.
  intros Hn Hp Hd Hdl Hoff.
  assert (E : ExampleThread.command_processor_body req
                {| ExampleThread.threads := []; ExampleThread.sent := [] |}
              = ({| ExampleThread.threads :=
                      [ExampleThread.RestartSlaveTask
                         (match lookup "delay" pd with
                          | Some v => v
                          | None => VNum 0
                          end)];
                    ExampleThread.sent :=
                      [create_from_method_request req 200
                         (response_body "restarted" 200)] |}, Ret tt)).
  { unfold ExampleThread.command_processor_body, ExampleThread.route,
      ExampleThread.restart_cmd.
    rewrite Hn, Hp. reflexivity. }
  unfold after_start. rewrite E.
  cbn [fst ExampleThread.sent ExampleThread.threads map].
  rewrite (restart_program_accepted cfg _ dl Hd Hdl Hoff). reflexivity.
Qed.

(** C8, amended. For a restart request whose payload is a dict with a
    delay that is absent, [None] or a number [time.sleep] takes, a
    configured power-off delay that [time.sleep] takes, and a relay line
    that the hardware grants: the handler leaves the dispatcher with its 200
    response to send and a started task whose first step clears
    SLAVE_READY_STATE and whose last step, after the requested delay and
    the power cycle of [power_off_delay_sec], sets it. Whatever the
    interleaving, (1) a finished run has sent that one response, has
    taken the task's steps in order and ends with the flag set;
    (2) as long as the response is not sent, sending it is a possible next
    step: the task never blocks it; (3) every state is finished or has a
    next step, and each step leaves fewer steps to take, so every run
    finishes. The response and the writes of the flag are not ordered. *)
Theorem restart_response_and_readiness
    (cfg : ExampleThread.config) (flag : bool) (req : method_request)
    (pd : list (string * pyval)) (dl : Q) :
  name req = "restart" ->
  payload req = VDict pd ->
  ExampleThread.clamp_delay
    (match lookup "delay" pd with Some v => v | None => VNum 0 end) = Ret dl ->
  sleep_accepted dl = true ->
  sleep_accepted (ExampleThread.power_off_delay_sec cfg) = true ->
  let init := after_start cfg true flag req in
  let r := create_from_method_request req 200
             (response_body "restarted" 200) in
  main init = [ARespond r] /\
  worker init = restart_steps cfg dl /\
  (forall s, steps init s -> terminal s ->
     ready s = true /\
     filter is_respond (trace s) = [ARespond r] /\
     filter (fun a => negb (is_respond a)) (trace s) = restart_steps cfg dl) /\
  (forall s, steps init s -> main s <> [] ->
     step s {| ready := ready s; trace := trace s ++ [ARespond r];
               main := []; worker := worker s |}) /\
  (forall s, steps init s ->
     terminal s \/
     exists s', step s s' /\ (remaining s' < remaining s)%nat).
Proof.
  intros Hn Hp Hd Hdl Hoff init r.
  assert (Hinit : init = {| ready := flag; trace := [];
                            main := [ARespond r];
                            worker := restart_steps cfg dl |})
    by (apply (after_start_restart cfg flag req pd dl Hn Hp Hd Hdl Hoff)).
  assert (Hm : Forall (fun a => is_respond a = true) (main init))
    by (rewrite Hinit; repeat constructor).
  assert (Hw : Forall (fun a => is_respond a = false) (worker init))
    by (rewrite Hinit; repeat constructor).
  split; [rewrite Hinit; reflexivity|].
  split; [rewrite Hinit; reflexivity|].
  split; [|split].
  - intros s Hs [Tm Tw].
    destruct (steps_split init s Hs Hm Hw) as [t [Ht [Hr [Hfm Hfw]]]].
    rewrite Tm, app_nil_r in Hfm. rewrite Tw, app_nil_r in Hfw.
    rewrite Hinit in Ht, Hr, Hfm, Hfw. cbn [trace ready main worker app] in *.
    rewrite Ht. split; [|split; assumption].
    rewrite Hr, settle_skips_responses, Hfw. reflexivity.
  - intros s Hs Hne.
    destruct (steps_split init s Hs Hm Hw) as [t [_ [_ [Hfm _]]]].
    rewrite Hinit in Hfm. cbn [main] in Hfm.
    destruct (main s) as [|a pc] eqn:E; [congruence|].
    destruct (filter is_respond t) as [|x xs].
    + cbn [app] in Hfm. injection Hfm as -> ->.
      apply (step_main s (ARespond r) [] E).
    + cbn [app] in Hfm. injection Hfm as _ Hnil.
      apply app_eq_nil in Hnil as [_ Hnil]. discriminate.
  - intros s _. destruct (progress s) as [T | [s' Hs']]; [left; exact T|].
    right. exists s'. split; [exact Hs' | apply step_decreases, Hs'].
Qed.

End Restart.

(** C8, as stated, fails: in the run where the started task takes all its
    steps before the dispatcher sends, the flag has gone from set to
    cleared and back to set when the response is sent. *)
Lemma readiness_changes_before_response :
  let req := {| name := "restart"; payload := VDict [("delay", VNum 2)];
                request_id := "1" |} in
  let init := Tasks.after_start default_config true true req in
  let s := Tasks.run [false; false; false; false; false; false; false; true]
             init in
  Tasks.steps init s /\
  Tasks.terminal s /\
  Tasks.trace s
  = [ASetReady false; ASleep 2; ARequestLine 17; ARelay true; ASleep 5;
     ARelay false; ASetReady true;
     ARespond (create_from_method_request req 200
                 (response_body "restarted" 200))] /\
  Tasks.respond_before_ready (Tasks.trace s) = false.
Proof.
  intros req init s.
  split; [apply run_steps|].
  split; [split; reflexivity|].
  split; reflexivity.
Qed.

Lemma restart_response_and_readiness_witness :
  let req := {| name := "restart"; payload := VDict [("delay", VNum 2)];
                request_id := "1" |} in
  let init := Tasks.after_start default_config true false req in
  let s := Tasks.run [false; true; false; false; false; false; false; false]
             init in
  Tasks.ready s = true /\
  filter Tasks.is_respond (Tasks.trace s)
  = [ARespond (create_from_method_request req 200
                 (response_body "restarted" 200))].
Proof.
  intros req init s.
  destruct (restart_response_and_readiness default_config false req
              [("delay", VNum 2)] 2 eq_refl eq_refl eq_refl eq_refl eq_refl)
    as [_ [_ [Hfin _]]].
  destruct (Hfin s (run_steps _ init) (conj eq_refl eq_refl)) as [Hr [Hf _]].
  split; [exact Hr | exact Hf].
Defined.

(* ===================================================================== *)
(** ** Beyond the stated properties: send, connect and the Sender *)
(* ===================================================================== *)

Lemma sent_as_nil o w : sent_as o [] w = w.
Proof. destruct w; unfold sent_as; cbn. rewrite app_nil_r. reflexivity. Qed.

(** The shape of a send, over what the subscripts of the message give. *)
Definition send_shape (o : outcome) (w : world)
    (kind body : res pyval) (t0 t1 : string) : world * res bool :=
  match kind with
  | Raise e => (w, Raise e)
  | Ret k =>
      if eq_str k t0 then
        match body with
        | Raise e => (w, Raise e)
        | Ret b => (sent_as o [SendMessage b] w, Ret (is_delivered o))
        end
      else if eq_str k t1 then
        match body with
        | Raise e => (w, Raise e)
        | Ret b =>
            (sent_as o [PatchTwinReportedProperties b] w,
             Ret (is_delivered o))
        end
      else (w, Ret false)
  end.

Ltac split_subscript sub :=
  match goal with
  | |- context [sub ?m ?i] =>
      let x := fresh "x" in
      let e := fresh "e" in
      destruct (sub m i) as [x|e]; [|reflexivity]
  end.

Ltac split_kind :=
  match goal with
  | |- context [eq_str ?k ?t] => destruct (eq_str k t)
  end.

Ltac send_shape_tac sub o :=
  split_subscript sub; cbv [bind lift];
  split_kind;
  [ split_subscript sub; destruct o; reflexivity
  | cbv beta iota; split_kind;
    [ split_subscript sub; destruct o; reflexivity | reflexivity ] ].

Lemma example_send_shape (o : outcome) (message : pyval) (w : world) :
  message <> VNone ->
  ExampleThread.send_with_timeout o message w
  = send_shape o w (subscript_int message 0) (subscript_int message 1)
      (ExampleThread.MSGTYPE 0) (ExampleThread.MSGTYPE 1).
Proof.
  intros Hn. unfold ExampleThread.send_with_timeout, send_shape.
  destruct message; try congruence; unfold bind at 1; unfold lift at 1;
    send_shape_tac subscript_int o.
Qed.

Lemma azure_send_shape (o : outcome) (message : pyval) (w : world) :
  message <> VNone ->
  MyAzure.send_with_timeout o message w
  = send_shape o w (subscript_str message "type") (subscript_str message "msg")
      (MyAzure.MSGTYPE 0) (MyAzure.MSGTYPE 1).
Proof.
  intros Hn. unfold MyAzure.send_with_timeout, send_shape.
  destruct message; try congruence; unfold bind at 1; unfold lift at 1;
    send_shape_tac subscript_str o.
Qed.

Lemma send_shape_cases o message w kind body t0 t1 :
  is_none message = false ->
  exists calls,
    (List.length calls <= 1)%nat /\
    fst (send_shape o w kind body t0 t1) = sent_as o calls w /\
    send_result o message calls (snd (send_shape o w kind body t0 t1)).
Proof.
  intros Hn. unfold send_shape, send_result. rewrite Hn.
  destruct kind as [k|e]; [|exists []; rewrite sent_as_nil; cbn; auto].
  destruct (eq_str k t0).
  - destruct body as [b|e]; [|exists []; rewrite sent_as_nil; cbn; auto].
    eexists [_]; cbn; auto.
  - destruct (eq_str k t1); [|exists []; rewrite sent_as_nil; cbn; auto].
    destruct body as [b|e]; [|exists []; rewrite sent_as_nil; cbn; auto].
    eexists [_]; cbn; auto.
Qed.

(** X1. Whatever the message and whatever the client answers, one call of
    [send_with_timeout] submits at most one call to the client and touches
    neither the queue nor the session; when it returns, it returns [True]
    exactly for [None] and for a submitted call that was delivered; when it
    raises, nothing was submitted. *)
Theorem send_submits_at_most_once (o : outcome) (message : pyval) (w : world) :
  (exists calls,
     (List.length calls <= 1)%nat /\
     fst (ExampleThread.send_with_timeout o message w) = sent_as o calls w /\
     send_result o message calls
       (snd (ExampleThread.send_with_timeout o message w)))
  /\
  (exists calls,
     (List.length calls <= 1)%nat /\
     fst (MyAzure.send_with_timeout o message w) = sent_as o calls w /\
     send_result o message calls
       (snd (MyAzure.send_with_timeout o message w))).
Proof.
  destruct (is_none message) eqn:Hn.
  - destruct message; try discriminate.
    split; exists []; rewrite sent_as_nil; cbn; auto.
  - assert (Hne : message <> VNone) by (intros ->; discriminate).
    split.
    + rewrite (example_send_shape o message w Hne).
      apply send_shape_cases, Hn.
    + rewrite (azure_send_shape o message w Hne).
      apply send_shape_cases, Hn.
Qed.

(** X2. The answer of [connect_to_iot_hub] says nothing about the session:
    in my_azure.py it is [True] on every input; in
    azure-iot-example_thread.py it is [True] or the call leaves with a
    [NameError]. The session is connected afterwards exactly when it was
    before or the handshake succeeded, so [True] is also returned with
    the session still down. *)
Theorem connect_never_reports_failure (handshake : bool) (w : world) :
  (snd (MyAzure.connect_to_iot_hub handshake w) = Ret true /\
   connected (fst (MyAzure.connect_to_iot_hub handshake w))
   = (connected w || handshake)%bool /\
   send_queue (fst (MyAzure.connect_to_iot_hub handshake w)) = send_queue w)
  /\
  (snd (ExampleThread.connect_to_iot_hub handshake w)
   = (if (connected w || handshake)%bool then Ret true else Raise NameError) /\
   connected (fst (ExampleThread.connect_to_iot_hub handshake w))
   = (connected w || handshake)%bool /\
   send_queue (fst (ExampleThread.connect_to_iot_hub handshake w))
   = send_queue w).
Proof.
  unfold MyAzure.connect_to_iot_hub, ExampleThread.connect_to_iot_hub.
  cbv [bind gets].
  destruct w as [q c l]; cbn [connected].
  destruct c, handshake; cbn; repeat split; reflexivity.
Qed.

Section SenderMore.
Import ExampleThread.

Variable cfg : config.

Lemma submitted_app (l1 l2 : list event) :
  submitted (l1 ++ l2) = submitted l1 ++ submitted l2.
Proof.
  induction l1 as [|e l1 IH]; [reflexivity|].
  destruct e; cbn [app submitted]; rewrite ?IH; reflexivity.
Qed.

Lemma submitted_probe_log (failed : nat) :
  submitted (probe_log cfg failed) = [].
Proof. induction failed; [reflexivity | assumption]. Qed.

(** One turn on a producer message with the session up or the handshake
    good: the message is submitted once and not put back, whatever the
    client answers. *)
Lemma sender_body_any_outcome (sl : slice) (m : pyval) (w : world) :
  handshake_ok sl = true -> producer_msg m ->
  exists w',
    sender_body cfg sl m w = (w', Ret tt) /\
    send_queue w' = send_queue w /\
    submitted (log w') = submitted (log w) ++ request_of m.
Proof.
  intros Hh [body Hm].
  unfold sender_body. unfold bind at 1. rewrite wait_for_network_spec.
  rewrite Hh.
  unfold bind at 1. unfold connect_to_iot_hub.
  cbv [bind gets connected].
  destruct w as [q c l]; cbn [send_queue connected log].
  destruct (delivery sl) as [| |reason];
    destruct c, Hm as [-> | ->]; cbn;
    (eexists; split; [reflexivity|]; split; [reflexivity|]);
    cbn [log]; rewrite !submitted_app, submitted_probe_log;
    cbn [submitted]; rewrite ?app_nil_r; reflexivity.
Qed.

Lemma served_drains (slices : list slice) :
  forall queued,
    flat_map arrivals slices = [] ->
    (queued <= List.length slices)%nat ->
    served queued slices = queued.
Proof.
  induction slices as [|sl rest IH]; intros queued Ha Hlen.
  - cbn in *. lia.
  - cbn [flat_map] in Ha. apply app_eq_nil in Ha as [Hsl Hrest].
    cbn [served List.length] in *. rewrite Hsl. cbn [List.length].
    rewrite Nat.add_0_r.
    destruct queued as [|others].
    + apply IH; [assumption | lia].
    + f_equal. apply IH; [assumption | lia].
Qed.

(** X3. With the session up or the handshake good in every turn, and a
    network-check interval that [time.sleep] takes, the Sender takes the
    head of the queue in every turn that finds a message and hands it to
    the client exactly once, whether the delivery succeeds, times out or
    fails: a failed message is not tried again. After the turns, the calls
    submitted are those of the first [served] messages in the order put,
    what is queued is the rest of what was put, and the thread has not
    ended; given as many turns as there are queued messages, every one has
    been submitted and the queue is empty. *)
Theorem sender_submits_each_once (slices : list slice) :
  forall w,
    sleep_accepted (check_interval_sec cfg) = true ->
    Forall (fun sl => handshake_ok sl = true) slices ->
    Forall producer_msg (send_queue w ++ flat_map arrivals slices) ->
    snd (sender_task cfg slices w) = Ret tt /\
    submitted (log (fst (sender_task cfg slices w)))
    = submitted (log w)
      ++ flat_map request_of
           (firstn (served (List.length (send_queue w)) slices)
              (send_queue w ++ flat_map arrivals slices)) /\
    send_queue (fst (sender_task cfg slices w))
    = skipn (served (List.length (send_queue w)) slices)
        (send_queue w ++ flat_map arrivals slices) /\
    (flat_map arrivals slices = [] ->
     (List.length (send_queue w) <= List.length slices)%nat ->
     send_queue (fst (sender_task cfg slices w)) = [] /\
     submitted (log (fst (sender_task cfg slices w)))
     = submitted (log w) ++ flat_map request_of (send_queue w)).
Proof.
  intros w Hsleep Hh Hp.
  assert (Main :
    snd (sender_task cfg slices w) = Ret tt /\
    submitted (log (fst (sender_task cfg slices w)))
    = submitted (log w)
      ++ flat_map request_of
           (firstn (served (List.length (send_queue w)) slices)
              (send_queue w ++ flat_map arrivals slices)) /\
    send_queue (fst (sender_task cfg slices w))
    = skipn (served (List.length (send_queue w)) slices)
        (send_queue w ++ flat_map arrivals slices)).
  { clear Hsleep. revert w Hh Hp.
    induction slices as [|sl rest IH]; intros w Hh Hp.
    - cbn. rewrite !app_nil_r. repeat split; reflexivity.
    - rewrite sender_task_cons.
      cbn [flat_map served] in *. rewrite app_assoc in Hp. rewrite app_assoc.
      rewrite <- length_app.
      inversion Hh as [|? ? Hsl Hrest]; subst.
      destruct (send_queue w ++ arrivals sl) as [|msg q'] eqn:Hq.
      + apply app_eq_nil in Hq as [Hq _].
        specialize (IH w Hrest). rewrite Hq in IH.
        cbn [List.length app] in *. apply IH, Hp.
      + cbn [app] in Hp. inversion Hp as [|? ? Hmsg Hq']; subst.
        destruct (sender_body_any_outcome sl msg
                    {| send_queue := q'; connected := connected w;
                       log := log w |} Hsl Hmsg) as [w2 [E [Hq2 Hd2]]].
        rewrite E. cbn [send_queue log] in Hq2, Hd2.
        specialize (IH w2 Hrest). rewrite Hq2 in IH.
        destruct (IH Hq') as [R [O Q]]. split; [exact R|].
        cbn [List.length app firstn skipn flat_map]. split.
        * rewrite O, Hd2, <- app_assoc. reflexivity.
        * exact Q. }
  destruct Main as [R [O Q]].
  split; [exact R|]. split; [exact O|]. split; [exact Q|].
  intros Ha Hlen.
  rewrite (served_drains slices _ Ha Hlen) in O, Q.
  rewrite Ha, app_nil_r in O, Q.
  rewrite firstn_all in O. rewrite skipn_all in Q. split; assumption.
Qed.


End SenderMore.

Lemma sender_submits_each_once_witness :
  let failing := {| arrivals := []; probes_failed := 1; handshake_ok := true;
                    delivery := TimedOut |} in
  let w := {| send_queue := [VList [VStr "telemetry"; VNum 1];
                             VList [VStr "propertyUpdate"; VNum 2]];
              connected := false; log := [] |} in
  send_queue
    (fst (ExampleThread.sender_task default_config [failing; failing] w))
  = [] /\
  submitted
    (log (fst (ExampleThread.sender_task default_config [failing; failing] w)))
  = [SendMessage (VNum 1); PatchTwinReportedProperties (VNum 2)].
Proof.
  intros failing w.
  apply (proj2 (proj2 (proj2
           (sender_submits_each_once default_config [failing; failing] w
              eq_refl
              ltac:(repeat constructor)
              ltac:(repeat constructor; eexists;
                    [left | right]; reflexivity))))
           eq_refl ltac:(cbn; lia)).
Defined.


Section PoisonMessage.
Import ExampleThread.

Variable cfg : config.





End PoisonMessage.


Section SimpleSender.
Import ThreadSimpleRest.

Lemma simple_sender_task_cons (sl : slice) (rest : list slice) (w : world) :
  sender_task (sl :: rest) w =
  match send_queue w ++ arrivals sl with
  | [] => sender_task rest w
  | msg :: q' =>
      match sender_body sl msg
              {| send_queue := q'; connected := connected w; log := log w |}
      with
      | (w2, Ret _) => sender_task rest w2
      | (w2, Raise e) => (w2, Raise e)
      end
  end.
Proof.
  cbn [sender_task]. unfold bind at 1, gets.
  destruct (send_queue w ++ arrivals sl); reflexivity.
Qed.

(** X6. In azure-iot-thread-simple.py a turn whose first reachability probe
    fails ends the Sender thread: [wait_until_connected] leaves with a
    [NameError] (network.py calls [time.sleep] without importing [time])
    before any sleep; the message just taken is neither submitted nor put
    back, and the turns that would follow never run. *)
Theorem simple_sender_dies_without_network
    (sl : slice) (rest : list slice) (w : world) (msg : pyval)
    (q' : list pyval) (n : nat) :
  probes_failed sl = S n ->
  send_queue w ++ arrivals sl = msg :: q' ->
  sender_task (sl :: rest) w
  = ({| send_queue := q'; connected := connected w;
        log := log w ++ [EvProbe false] |}, Raise NameError).
Proof.
  intros Hp Hq. rewrite simple_sender_task_cons, Hq.
  unfold sender_body. unfold bind at 1. rewrite Hp. reflexivity.
Qed.

Lemma simple_sender_body_any_outcome (sl : slice) (m : pyval) (w : world) :
  probes_failed sl = 0%nat -> azure_msg m ->
  exists w',
    sender_body sl m w = (w', Ret tt) /\
    send_queue w' = send_queue w /\
    submitted (log w') = submitted (log w) ++ azure_request_of m.
Proof.
  intros Hp [body Hm].
  unfold sender_body. rewrite Hp.
  destruct w as [q c l].
  destruct (handshake_ok sl), (delivery sl) as [| |reason];
    destruct c, Hm as [-> | ->]; cbn;
    (eexists; split; [reflexivity|]; split; [reflexivity|]);
    cbn [log]; rewrite !submitted_app;
    cbn [submitted]; rewrite ?app_nil_r; reflexivity.
Qed.

(** A turn that finds the session down and whose handshake fails still
    submits: the reconnect sleep, then the send. *)
Lemma simple_sender_body_after_failed_handshake
    (sl : slice) (m : pyval) (w : world) :
  probes_failed sl = 0%nat -> azure_msg m ->
  connected w = false -> handshake_ok sl = false ->
  exists c,
    azure_request_of m = [c] /\
    sender_body sl m w
    = ({| send_queue := send_queue w; connected := false;
          log := log w ++ [EvProbe true; EvConnect false;
                           EvSleep MyAzure.RECONNECT_INTERVAL;
                           EvSubmit c (delivery sl); EvSleep (1 # 10)] |},
       Ret tt).
Proof.
  intros Hp [body Hm] Hc Hh.
  unfold sender_body. rewrite Hp, Hh.
  destruct w as [q c l]. cbn [connected] in Hc. subst c.
  destruct (delivery sl) as [| |reason], Hm as [-> | ->];
    eexists; (split; [reflexivity|]); cbn;
    cbv [sleep emit modify]; cbn [send_queue connected log];
    rewrite <- ?app_assoc; reflexivity.
Qed.

(** X7. In azure-iot-thread-simple.py, with the network reachable at the
    first probe of every turn, the Sender takes the head of the queue in
    every turn that finds a message and hands it to the client exactly
    once, whatever the handshake and the delivery do: a failed message is
    not tried again. After the turns, the calls submitted are those of the
    first [served] messages in the order put, what is queued is the rest
    of what was put, and the thread has not ended; given as many turns as
    there are queued messages, every one has been submitted and the queue
    is empty. A turn that finds the session down and whose handshake
    fails sleeps the reconnect interval and submits all the same. *)
Theorem simple_sender_submits_each_once (slices : list slice) :
  forall w,
    Forall (fun sl => probes_failed sl = 0%nat) slices ->
    Forall azure_msg (send_queue w ++ flat_map arrivals slices) ->
    snd (sender_task slices w) = Ret tt /\
    submitted (log (fst (sender_task slices w)))
    = submitted (log w)
      ++ flat_map azure_request_of
           (firstn (served (List.length (send_queue w)) slices)
              (send_queue w ++ flat_map arrivals slices)) /\
    send_queue (fst (sender_task slices w))
    = skipn (served (List.length (send_queue w)) slices)
        (send_queue w ++ flat_map arrivals slices) /\
    (flat_map arrivals slices = [] ->
     (List.length (send_queue w) <= List.length slices)%nat ->
     send_queue (fst (sender_task slices w)) = [] /\
     submitted (log (fst (sender_task slices w)))
     = submitted (log w) ++ flat_map azure_request_of (send_queue w)) /\
    (forall sl msg q',
       connected w = false ->
       handshake_ok sl = false ->
       probes_failed sl = 0%nat ->
       azure_msg msg ->
       send_queue w ++ arrivals sl = msg :: q' ->
       exists c,
         azure_request_of msg = [c] /\
         sender_task [sl] w
         = ({| send_queue := q'; connected := false;
               log := log w ++ [EvProbe true; EvConnect false;
                                EvSleep MyAzure.RECONNECT_INTERVAL;
                                EvSubmit c (delivery sl);
                                EvSleep (1 # 10)] |}, Ret tt)).
Proof.
  intros w Hh Hp.
  assert (Main :
    snd (sender_task slices w) = Ret tt /\
    submitted (log (fst (sender_task slices w)))
    = submitted (log w)
      ++ flat_map azure_request_of
           (firstn (served (List.length (send_queue w)) slices)
              (send_queue w ++ flat_map arrivals slices)) /\
    send_queue (fst (sender_task slices w))
    = skipn (served (List.length (send_queue w)) slices)
        (send_queue w ++ flat_map arrivals slices)).
  { revert w Hh Hp.
    induction slices as [|sl rest IH]; intros w Hh Hp.
    - cbn. rewrite !app_nil_r. repeat split; reflexivity.
    - rewrite simple_sender_task_cons.
      cbn [flat_map served] in *. rewrite app_assoc in Hp. rewrite app_assoc.
      rewrite <- length_app.
      inversion Hh as [|? ? Hsl Hrest]; subst.
      destruct (send_queue w ++ arrivals sl) as [|msg q'] eqn:Hq.
      + apply app_eq_nil in Hq as [Hq _].
        specialize (IH w Hrest). rewrite Hq in IH.
        cbn [List.length app] in *. apply IH, Hp.
      + cbn [app] in Hp. inversion Hp as [|? ? Hmsg Hq']; subst.
        destruct (simple_sender_body_any_outcome sl msg
                    {| send_queue := q'; connected := connected w;
                       log := log w |} Hsl Hmsg) as [w2 [E [Hq2 Hd2]]].
        rewrite E. cbn [send_queue log] in Hq2, Hd2.
        specialize (IH w2 Hrest). rewrite Hq2 in IH.
        destruct (IH Hq') as [R [O Q]]. split; [exact R|].
        cbn [List.length app firstn skipn flat_map]. split.
        * rewrite O, Hd2, <- app_assoc. reflexivity.
        * exact Q. }
  destruct Main as [R [O Q]].
  split; [exact R|]. split; [exact O|]. split; [exact Q|]. split.
  - intros Ha Hlen.
    rewrite (served_drains slices _ Ha Hlen) in O, Q.
    rewrite Ha, app_nil_r in O, Q.
    rewrite firstn_all in O. rewrite skipn_all in Q. split; assumption.
  - intros sl msg q' Hc Hf Hp0 Hmsg Hq.
    destruct (simple_sender_body_after_failed_handshake sl msg
                {| send_queue := q'; connected := connected w; log := log w |}
                Hp0 Hmsg Hc Hf) as [c [Hcall E]].
    exists c. split; [exact Hcall|].
    rewrite simple_sender_task_cons, Hq, E. reflexivity.
Qed.

End SimpleSender.

Lemma simple_sender_dies_without_network_witness :
  ThreadSimpleRest.sender_task
    [{| arrivals := []; probes_failed := 2; handshake_ok := true;
        delivery := Delivered |}]
    {| send_queue := [MyAzure.create_telementry_message_pair (VNum 1);
                      MyAzure.create_property_message_pair (VNum 2)];
       connected := true; log := [] |}
  = ({| send_queue := [MyAzure.create_property_message_pair (VNum 2)];
        connected := true; log := [EvProbe false] |}, Raise NameError).
Proof.
  apply (simple_sender_dies_without_network
           {| arrivals := []; probes_failed := 2; handshake_ok := true;
              delivery := Delivered |} []
           {| send_queue := [MyAzure.create_telementry_message_pair (VNum 1);
                             MyAzure.create_property_message_pair (VNum 2)];
              connected := true; log := [] |}
           (MyAzure.create_telementry_message_pair (VNum 1))
           [MyAzure.create_property_message_pair (VNum 2)] 1);
    reflexivity.
Defined.

Lemma simple_sender_submits_each_once_witness :
  let turn := {| arrivals := []; probes_failed := 0; handshake_ok := false;
                 delivery := Failed "not connected" |} in
  let w := {| send_queue := [MyAzure.create_telementry_message_pair (VNum 1);
                             MyAzure.create_property_message_pair (VNum 2)];
              connected := false; log := [] |} in
  (send_queue (fst (ThreadSimpleRest.sender_task [turn; turn] w)) = [] /\
   submitted (log (fst (ThreadSimpleRest.sender_task [turn; turn] w)))
   = [SendMessage (VNum 1); PatchTwinReportedProperties (VNum 2)]) /\
  exists c,
    azure_request_of (MyAzure.create_telementry_message_pair (VNum 1)) = [c] /\
    ThreadSimpleRest.sender_task [turn] w
    = ({| send_queue := [MyAzure.create_property_message_pair (VNum 2)];
          connected := false;
          log := [EvProbe true; EvConnect false;
                  EvSleep MyAzure.RECONNECT_INTERVAL;
                  EvSubmit c (Failed "not connected"); EvSleep (1 # 10)] |},
       Ret tt).
Proof.
  intros turn w.
  destruct (simple_sender_submits_each_once [turn; turn] w
              ltac:(repeat constructor)
              ltac:(repeat constructor; eexists;
                    [left | right]; reflexivity))
    as [_ [_ [_ [Hdrain Hturn]]]].
  split.
  - apply (Hdrain eq_refl ltac:(cbn; lia)).
  - apply (Hturn turn (MyAzure.create_telementry_message_pair (VNum 1))
             [MyAzure.create_property_message_pair (VNum 2)]
             eq_refl eq_refl eq_refl
             ltac:(eexists; left; reflexivity) eq_refl).
Defined.

(* ===================================================================== *)
(** ** Producers *)
(* ===================================================================== *)

Section Producers.

Lemma Qle_bool_false_lt (a b : Q) : Qle_bool a b = false -> b < a.
Proof.
  intros E. apply Qnot_le_lt. intros H.
  apply Qle_bool_iff in H. congruence.
Qed.

(** X8. A tick of the telemetry producer fires exactly when at least
    [interval_sec] has passed on its clock since the tick that fired
    before (since [last_time] for the first): [sensor_task] puts one
    telemetry message for each tick that fires and none for the others,
    in tick order and with that tick's payload. Two ticks that fire in a
    row are therefore at least [interval_sec] apart. *)
Theorem sensor_task_spacing (cfg : ExampleThread.config)
    (ticks : list (Q * pyval)) :
  forall last_time,
    exists fired,
      ExampleThread.sensor_task cfg last_time ticks
      = map (fun t => VList [VStr (ExampleThread.MSGTYPE 0); snd t]) fired /\
      fires (ExampleThread.interval_sec cfg) last_time ticks fired /\
      sublist fired ticks /\
      spaced (ExampleThread.interval_sec cfg) last_time (map fst fired).
Proof.
  induction ticks as [|[now body] ticks IH]; intros last_time.
  - exists []. repeat split; constructor.
  - cbn [ExampleThread.sensor_task].
    destruct (Qle_bool (ExampleThread.interval_sec cfg) (now - last_time))
      eqn:E.
    + destruct (IH now) as [fired [Hm [Hf [Hs Hsp]]]].
      apply Qle_bool_iff in E.
      exists ((now, body) :: fired). cbn [map fst snd spaced].
      rewrite Hm. split; [reflexivity|].
      split; [constructor; assumption|].
      split; [constructor; exact Hs|].
      split; assumption.
    + destruct (IH last_time) as [fired [Hm [Hf [Hs Hsp]]]].
      apply Qle_bool_false_lt in E.
      exists fired. split; [exact Hm|].
      split; [apply fires_wait; assumption|].
      split; [constructor; exact Hs | exact Hsp].
Qed.

(** With the default interval of 10 and a clock read at 10, 12 and 20,
    the first and the third tick fire. *)
Example sensor_task_fires_first_and_third :
  ExampleThread.sensor_task default_config 0
    [(10, VNum 21); (12, VNum 22); (20, VNum 23)]
  = [VList [VStr "telemetry"; VNum 21]; VList [VStr "telemetry"; VNum 23]] /\
  fires 10 0 [(10, VNum 21); (12, VNum 22); (20, VNum 23)]
    [(10, VNum 21); (20, VNum 23)].
Proof.
  split; [reflexivity|].
  apply fires_put; [discriminate|].
  apply fires_wait; [reflexivity|].
  apply fires_put; [discriminate|].
  constructor.
Qed.

(** X9. The heartbeat producer of azure-iot-example_thread.py puts nothing
    in a turn that finds STOP_HEARTBEAT set; what it puts are telemetry
    messages carrying the status of the turn that fired, in turn order,
    and two turns that fire in a row are at least the heartbeat interval
    apart; all it puts are messages the Sender knows. *)
Theorem heartbeat_task_spacing (heartbeat_interval : Q)
    (ticks : list (Q * ExampleThread.globals)) :
  forall last_time,
    exists fired,
      ExampleThreadRest.heartbeat_task heartbeat_interval last_time ticks
      = map (fun t => VList [VStr (ExampleThread.MSGTYPE 0);
                             ExampleThreadRest.create_heartbeat (snd t)])
            fired /\
      sublist fired ticks /\
      spaced heartbeat_interval last_time (map fst fired) /\
      Forall (fun t => ExampleThread.STOP_HEARTBEAT (snd t) = false) fired /\
      Forall producer_msg
        (ExampleThreadRest.heartbeat_task heartbeat_interval last_time ticks).
Proof.
  induction ticks as [|[now g] ticks IH]; intros last_time.
  - exists []. repeat split; constructor.
  - cbn [ExampleThreadRest.heartbeat_task].
    destruct (ExampleThread.STOP_HEARTBEAT g) eqn:Es; cbn [negb].
    + destruct (IH last_time) as [fired [Hm [Hs [Hsp [Hst Hp]]]]].
      exists fired. split; [exact Hm|]. split; [constructor; exact Hs|].
      auto.
    + destruct (Qle_bool heartbeat_interval (now - last_time)) eqn:E.
      * destruct (IH now) as [fired [Hm [Hs [Hsp [Hst Hp]]]]].
        exists ((now, g) :: fired). cbn [map fst snd spaced].
        rewrite Hm. split; [reflexivity|]. split; [constructor; exact Hs|].
        split; [split; [apply Qle_bool_iff, E | exact Hsp]|].
        split; [constructor; [exact Es | exact Hst]|].
        constructor; [eexists; left; reflexivity|].
        rewrite <- Hm. exact Hp.
      * destruct (IH last_time) as [fired [Hm [Hs [Hsp [Hst Hp]]]]].
        exists fired. split; [exact Hm|]. split; [constructor; exact Hs|].
        auto.
Qed.

Variable int_ : pyval -> res Z.

(** With an interval that is zero or negative the heartbeat producer of
    azure-iot-thread-simple.py fires in every turn of a clock that does
    not go back. *)
Lemma simple_heartbeat_fires_every_turn (interval : Q)
    (ticks : list ThreadSimpleRest.tick) :
  interval <= 0 ->
  forall last_time,
    nondecreasing last_time (map ThreadSimpleRest.now ticks) ->
    List.length (ThreadSimpleRest.heartbeat_task interval last_time ticks)
    = List.length ticks.
Proof.
  intros Hi.
  induction ticks as [|t ticks IH]; intros last_time Hn; [reflexivity|].
  cbn [map nondecreasing] in Hn. destruct Hn as [Hle Hn].
  cbn [ThreadSimpleRest.heartbeat_task].
  assert (E : Qle_bool interval (ThreadSimpleRest.now t - last_time) = true).
  { apply Qle_bool_iff. apply Qle_trans with 0; [exact Hi|].
    unfold Qminus. rewrite <- (Qplus_opp_r last_time).
    apply Qplus_le_l. exact Hle. }
  rewrite E. cbn [List.length]. f_equal. apply IH, Hn.
Qed.

(** X10. [parse_heartbeat_config] of azure-iot-thread-simple.py decides on
    the integer [z] that [int] makes of the configured value (of
    HEARTBEAT_INTERVAL_SEC itself when the key is missing): when [z] is
    positive, HEARTBEAT_INTERVAL_SEC stays as it was, so the configured
    interval is not taken over; when [z] is zero or negative, [z] is what
    is stored. With an interval stored that way the heartbeat producer
    fires in every turn of a clock that does not go back. As [int]
    truncates, a configured 0.5 gives [z = 0] and stores 0. *)
Theorem parse_heartbeat_config_stores_only_invalid
    (config v : pyval) (current : Q) (z : Z) :
  get config "heartbeat_interval_sec" (VNum current) = Ret v ->
  int_ v = Ret z ->
  ThreadSimpleRest.parse_heartbeat_config int_ config current
  = ((if Z.leb z 0 then inject_Z z else current), Ret tt) /\
  ((z <= 0)%Z ->
   forall ticks last_time,
     nondecreasing last_time (map ThreadSimpleRest.now ticks) ->
     List.length
       (ThreadSimpleRest.heartbeat_task
          (fst (ThreadSimpleRest.parse_heartbeat_config int_ config current))
          last_time ticks)
     = List.length ticks).
Proof.
  intros Hg Hi.
  assert (E : ThreadSimpleRest.parse_heartbeat_config int_ config current
              = ((if Z.leb z 0 then inject_Z z else current), Ret tt)).
  { unfold ThreadSimpleRest.parse_heartbeat_config.
    cbv [bind gets lift]. rewrite Hg, Hi.
    destruct (Z.leb z 0); reflexivity. }
  split; [exact E|].
  intros Hz ticks last_time Hn. rewrite E. cbn [fst].
  apply Z.leb_le in Hz as Hb. rewrite Hb.
  apply simple_heartbeat_fires_every_turn; [|exact Hn].
  change 0 with (inject_Z 0). rewrite <- Zle_Qle. exact Hz.
Qed.

End Producers.

Lemma parse_heartbeat_config_stores_only_invalid_witness :
  let int_ := fun v => match v with
                       | VNum q => Ret (Z.quot (Qnum q) (Zpos (Qden q)))
                       | _ => Raise TypeError
                       end in
  let config := VDict [("heartbeat_interval_sec", VNum (1 # 2))] in
  ThreadSimpleRest.parse_heartbeat_config int_ config 10
  = (inject_Z 0, Ret tt) /\
  List.length
    (ThreadSimpleRest.heartbeat_task
       (fst (ThreadSimpleRest.parse_heartbeat_config int_ config 10)) 0
       [{| ThreadSimpleRest.now := 100; ThreadSimpleRest.ip := "";
           ThreadSimpleRest.pinged := Network.TimeoutExpired;
           ThreadSimpleRest.led_used := false |};
        {| ThreadSimpleRest.now := 100 + (1 # 10); ThreadSimpleRest.ip := "";
           ThreadSimpleRest.pinged := Network.TimeoutExpired;
           ThreadSimpleRest.led_used := false |}])
  = 2%nat.
Proof.
  intros int_ config.
  destruct (parse_heartbeat_config_stores_only_invalid int_ config
              (VNum (1 # 2)) 10 0 eq_refl eq_refl) as [E S].
  split; [exact E|].
  apply (S ltac:(lia)). cbn. repeat split; discriminate.
Defined.

(* ===================================================================== *)
(** ** Restart: what can go wrong in the started task *)
(* ===================================================================== *)

Section RestartEdges.
Import Tasks.

Variable cfg : ExampleThread.config.

Lemma after_start_restart_any
    (line_ok flag : bool) (req : method_request)
    (pd : list (string * pyval)) :
  name req = "restart" ->
  payload req = VDict pd ->
  after_start cfg line_ok flag req
  = {| ready := flag; trace := [];
       main := [ARespond (create_from_method_request req 200
                            (response_body "restarted" 200))];
       worker :=
         program (ExampleThread.restart_slave_task cfg line_ok
                    (match lookup "delay" pd with
                     | Some v => v
                     | None => VNum 0
                     end)) |}.
Proof.
  intros Hn Hp.
  unfold after_start, ExampleThread.command_processor_body,
    ExampleThread.route, ExampleThread.restart_cmd.
  rewrite Hn, Hp. reflexivity.
Qed.

(** Every case of the task, for a delay it can clamp. *)
Lemma restart_program_cases (line_ok : bool) (delay_sec : pyval) (dl : Q) :
  ExampleThread.clamp_delay delay_sec = Ret dl ->
  program (ExampleThread.restart_slave_task cfg line_ok delay_sec)
  = restart_trace cfg line_ok dl.
Proof.
  intros Hd.
  unfold program, ExampleThread.restart_slave_task, restart_trace,
    sleep_accepted.
  cbv [bind lift ret raise act modify task_sleep Slave.init
       Slave.power_cycle].
  rewrite Hd. cbv beta iota.
  destruct (Qle_bool 0 dl); cbn [negb andb]; [|reflexivity].
  destruct (Qle_bool dl SLEEP_MAX); cbn [negb andb]; [|reflexivity].
  destruct line_ok; [|reflexivity].
  destruct (Qle_bool 0 (ExampleThread.power_off_delay_sec cfg));
    cbn [negb andb]; [|reflexivity].
  destruct (Qle_bool (ExampleThread.power_off_delay_sec cfg) SLEEP_MAX);
    reflexivity.
Qed.

(** X11. A restart task that cannot finish leaves SLAVE_READY_STATE
    cleared. When the hardware refuses the relay line, or [time.sleep]
    refuses the requested delay or the configured power-off delay, the
    request is still answered 200 "restarted"; the started task clears
    the flag and dies where it is refused (a refused delay: before the
    line is requested; a refused line: before the relay is touched; a
    refused power-off delay: with the relay switched on). In every
    finished run the one response has been sent, the task has taken
    exactly those steps, and the flag is cleared, whatever it was. *)
Theorem unfinished_restart_leaves_flag_cleared
    (line_ok flag : bool) (req : method_request)
    (pd : list (string * pyval)) (dl : Q) :
  name req = "restart" ->
  payload req = VDict pd ->
  ExampleThread.clamp_delay
    (match lookup "delay" pd with Some v => v | None => VNum 0 end) = Ret dl ->
  (sleep_accepted dl && line_ok
   && sleep_accepted (ExampleThread.power_off_delay_sec cfg))%bool = false ->
  let init := after_start cfg line_ok flag req in
  worker init = restart_trace cfg line_ok dl /\
  forall s, steps init s -> terminal s ->
    ready s = false /\
    filter is_respond (trace s)
    = [ARespond (create_from_method_request req 200
                   (response_body "restarted" 200))] /\
    filter (fun a => negb (is_respond a)) (trace s)
    = restart_trace cfg line_ok dl.
Proof.
  intros Hn Hp Hd Hstop init.
  assert (Hinit : init
            = {| ready := flag; trace := [];
                 main := [ARespond (create_from_method_request req 200
                                      (response_body "restarted" 200))];
                 worker := restart_trace cfg line_ok dl |}).
  { unfold init. rewrite (after_start_restart_any line_ok flag req pd Hn Hp).
    rewrite (restart_program_cases line_ok _ dl Hd). reflexivity. }
  split; [rewrite Hinit; reflexivity|].
  intros s Hs [Tm Tw].
  assert (Hresp : Forall (fun a => is_respond a = false)
                    (restart_trace cfg line_ok dl)).
  { unfold restart_trace.
    destruct (sleep_accepted dl), line_ok,
      (sleep_accepted (ExampleThread.power_off_delay_sec cfg));
      repeat constructor. }
  assert (Hm : Forall (fun a => is_respond a = true) (main init))
    by (rewrite Hinit; repeat constructor).
  assert (Hw : Forall (fun a => is_respond a = false) (worker init))
    by (rewrite Hinit; exact Hresp).
  destruct (steps_split init s Hs Hm Hw) as [t [Ht [Hr [Hfm Hfw]]]].
  rewrite Tm, app_nil_r in Hfm. rewrite Tw, app_nil_r in Hfw.
  rewrite Hinit in Ht, Hr, Hfm, Hfw. cbn [trace ready main worker app] in *.
  rewrite Ht. split; [|split; assumption].
  rewrite Hr, settle_skips_responses, Hfw.
  unfold restart_trace.
  destruct (sleep_accepted dl), line_ok,
    (sleep_accepted (ExampleThread.power_off_delay_sec cfg));
    try discriminate Hstop; reflexivity.
Qed.

(** X12. A restart request whose delay cannot be compared with 0 (a string,
    a list, a dict) is answered 200 "restarted" like any other, but the
    started task dies on the comparison before its first step: in every
    run SLAVE_READY_STATE stays what it was and the relay is not touched. *)
Theorem restart_with_bad_delay_does_nothing
    (line_ok flag : bool) (req : method_request)
    (pd : list (string * pyval)) (e : exn) :
  name req = "restart" ->
  payload req = VDict pd ->
  ExampleThread.clamp_delay
    (match lookup "delay" pd with Some v => v | None => VNum 0 end)
  = Raise e ->
  let init := after_start cfg line_ok flag req in
  main init
  = [ARespond (create_from_method_request req 200
                 (response_body "restarted" 200))] /\
  worker init = [] /\
  forall s, steps init s ->
    ready s = flag /\
    filter (fun a => negb (is_respond a)) (trace s) = [].
Proof.
  intros Hn Hp Hd init.
  assert (Hinit : init
            = {| ready := flag; trace := [];
                 main := [ARespond (create_from_method_request req 200
                                      (response_body "restarted" 200))];
                 worker := [] |}).
  { unfold init. rewrite (after_start_restart_any line_ok flag req pd Hn Hp).
    unfold program, ExampleThread.restart_slave_task.
    unfold bind at 1. unfold lift. rewrite Hd. reflexivity. }
  split; [rewrite Hinit; reflexivity|].
  split; [rewrite Hinit; reflexivity|].
  intros s Hs.
  assert (Hm : Forall (fun a => is_respond a = true) (main init))
    by (rewrite Hinit; repeat constructor).
  assert (Hw : Forall (fun a => is_respond a = false) (worker init))
    by (rewrite Hinit; constructor).
  destruct (steps_split init s Hs Hm Hw) as [t [Ht [Hr [Hfm Hfw]]]].
  rewrite Hinit in Ht, Hr, Hfw. cbn [trace ready worker app] in *.
  apply app_eq_nil in Hfw as [Hfw _].
  rewrite Ht. split; [|exact Hfw].
  rewrite Hr, settle_skips_responses, Hfw. reflexivity.
Qed.

Lemma clamp_delay_nonnegative (delay_sec : pyval) (d : Q) :
  ExampleThread.clamp_delay delay_sec = Ret d -> 0 <= d.
Proof.
  intros Hd.
  destruct delay_sec as [|b|q|s|l|dd]; cbn in Hd;
    try discriminate; injection Hd as <-.
  - apply Qle_refl.
  - destruct b; discriminate.
  - destruct (Qle_bool 0 q) eqn:E;
      [apply Qle_bool_iff, E | apply Qle_refl].
Qed.



(** X13. The restart task leaves the relay switched on in exactly one
    case: the delay was taken, the relay line granted, and [time.sleep]
    then refuses the configured power-off delay (a negative one, or one
    beyond the clock) between [turn_on] and [turn_off]. In every other
    case -- a delay that cannot be compared or is refused, a refused line,
    a power-off delay that is taken -- the relay ends switched off. *)
Theorem relay_left_on_exactly_when_hold_is_refused
    (line_ok : bool) (delay_sec : pyval) :
  relay_left_on
    (program (ExampleThread.restart_slave_task cfg line_ok delay_sec))
  = match ExampleThread.clamp_delay delay_sec with
    | Ret dl =>
        (sleep_accepted dl && line_ok
         && negb (sleep_accepted (ExampleThread.power_off_delay_sec cfg)))%bool
    | Raise _ => false
    end.
Proof.
  destruct (ExampleThread.clamp_delay delay_sec) as [dl|e] eqn:Hd.
  - rewrite (restart_program_cases line_ok delay_sec dl Hd).
    unfold restart_trace.
    destruct (sleep_accepted dl), line_ok,
      (sleep_accepted (ExampleThread.power_off_delay_sec cfg));
      reflexivity.
  - unfold program, ExampleThread.restart_slave_task.
    unfold bind at 1. unfold lift. rewrite Hd. reflexivity.
Qed.

End RestartEdges.

Lemma unfinished_restart_leaves_flag_cleared_witness :
  let req := {| name := "restart";
                payload := VDict [("delay", VNum 1180591620717411303424)];
                request_id := "3" |} in
  let init := Tasks.after_start default_config true true req in
  let s := Tasks.run [false; true] init in
  Tasks.ready s = false /\
  filter (fun a => negb (Tasks.is_respond a)) (Tasks.trace s)
  = [ASetReady false].
Proof.
  intros req init s.
  destruct (unfinished_restart_leaves_flag_cleared default_config true true
              req [("delay", VNum 1180591620717411303424)]
              1180591620717411303424 eq_refl eq_refl eq_refl eq_refl)
    as [_ Hfin].
  destruct (Hfin s (run_steps _ init) (conj eq_refl eq_refl))
    as [Hr [_ Ht]].
  split; [exact Hr | exact Ht].
Defined.

Lemma restart_with_bad_delay_does_nothing_witness :
  let req := {| name := "restart";
                payload := VDict [("delay", VStr "soon")];
                request_id := "4" |} in
  let init := Tasks.after_start default_config true true req in
  Tasks.ready (Tasks.run [false; true; false] init) = true.
Proof.
  intros req init.
  destruct (restart_with_bad_delay_does_nothing default_config true true req
              [("delay", VStr "soon")] TypeError eq_refl eq_refl eq_refl)
    as [_ [_ Hall]].
  apply (Hall _ (run_steps _ init)).
Defined.

(** A power-off delay beyond the clock, as the configuration may hold:
    the relay is switched on and the task dies in the sleep. *)
Example relay_left_on_with_huge_power_off_delay :
  let cfg := {| ExampleThread.interval_sec := 10;
                ExampleThread.check_interval_sec := 5;
                ExampleThread.send_retry_interval_sec := 5;
                ExampleThread.relay_gpio_line := 17;
                ExampleThread.power_off_delay_sec :=
                  1180591620717411303424 |} in
  Tasks.program (ExampleThread.restart_slave_task cfg true (VNum 2))
  = [ASetReady false; ASleep 2; ARequestLine 17; ARelay true] /\
  relay_left_on
    (Tasks.program (ExampleThread.restart_slave_task cfg true (VNum 2)))
  = true.
Proof. split; reflexivity. Qed.

(* ===================================================================== *)
(** ** Dispatcher: what a command changes *)
(* ===================================================================== *)

Section DispatcherEffects.

Variable str : pyval -> string.

Lemma example_body_threads (req : method_request)
    (d : ExampleThread.dispatcher) :
  exists r,
    ExampleThread.sent (fst (ExampleThread.command_processor_body req d))
    = ExampleThread.sent d ++ [r] /\
    ((resp_status r = 200%Z /\
      exists t,
        ExampleThread.threads
          (fst (ExampleThread.command_processor_body req d))
        = ExampleThread.threads d ++ [t])
     \/
     (In (resp_status r) [404; 500]%Z /\
      ExampleThread.threads
        (fst (ExampleThread.command_processor_body req d))
      = ExampleThread.threads d)).
Proof.
  destruct req as [n p id].
  unfold ExampleThread.command_processor_body, ExampleThread.route,
    ExampleThread.restart_cmd.
  cbn [name payload].
  destruct (String.eqb n "restart");
    [destruct p|]; cbn; eexists; (split; [reflexivity|]); cbn;
    try (right; split; [auto | reflexivity]).
  left. split; [reflexivity|]. eexists. reflexivity.
Qed.

(** X14. Over any run of requests the dispatcher of
    azure-iot-example_thread.py starts exactly one restart task per
    response with code 200: a request answered 404 or 500 starts none. *)
Theorem one_task_per_accepted_restart (reqs : list method_request) :
  forall d,
    exists rs,
      ExampleThread.sent (fst (ExampleThread.command_processor_task reqs d))
      = ExampleThread.sent d ++ rs /\
      List.length
        (ExampleThread.threads
           (fst (ExampleThread.command_processor_task reqs d)))
      = (List.length (ExampleThread.threads d)
         + count_occ Z.eq_dec (map resp_status rs) 200%Z)%nat.
Proof.
  induction reqs as [|req reqs IH]; intros d.
  - exists []. cbn. rewrite app_nil_r. split; [reflexivity | lia].
  - cbn [ExampleThread.command_processor_task]. unfold bind.
    destruct (example_body_spec req d) as [d' [r0 [E _]]].
    destruct (example_body_threads req d) as [r [Hs Hc]].
    rewrite E in Hs, Hc |- *. cbn [fst] in Hs, Hc. cbv beta iota.
    destruct (IH d') as [rs [Hrs Hlen]].
    exists (r :: rs). rewrite Hrs, Hs, <- app_assoc.
    split; [reflexivity|]. rewrite Hlen. cbn [map count_occ].
    destruct Hc as [[H200 [t Ht]] | [Hin Ht]]; rewrite Ht.
    + rewrite H200. destruct (Z.eq_dec 200 200); [|congruence].
      rewrite length_app. cbn. lia.
    + destruct (Z.eq_dec (resp_status r) 200) as [Heq|]; [|lia].
      rewrite Heq in Hin. cbn in Hin.
      destruct Hin as [H | [H | []]]; discriminate.
Qed.

(** X15. What one request changes in the dispatcher of
    azure-iot-thread-simple.py besides the response it sends: answered 404
    or 500, nothing at all (a handler that raises has neither started a
    thread nor written the address); "RestartSlave" answered 200, one
    restart task; "SetSlaveIP" answered 200, the slave address and no
    thread; "Stop", answered 999, one stop task. *)
Theorem simple_command_effects (req : method_request)
    (d : ThreadSimple.dispatcher) :
  exists r,
    ThreadSimple.sent (fst (ThreadSimple.command_processor_body str req d))
    = ThreadSimple.sent d ++ [r] /\
    ((In (resp_status r) [404; 500]%Z /\
      ThreadSimple.threads
        (fst (ThreadSimple.command_processor_body str req d))
      = ThreadSimple.threads d /\
      ThreadSimple.slave_ip_address
        (fst (ThreadSimple.command_processor_body str req d))
      = ThreadSimple.slave_ip_address d)
     \/
     (resp_status r = 200%Z /\ name req = "RestartSlave" /\
      (exists delay,
         ThreadSimple.threads
           (fst (ThreadSimple.command_processor_body str req d))
         = ThreadSimple.threads d ++ [ThreadSimple.RestartSlaveTask delay]) /\
      ThreadSimple.slave_ip_address
        (fst (ThreadSimple.command_processor_body str req d))
      = ThreadSimple.slave_ip_address d)
     \/
     (resp_status r = 200%Z /\ name req = "SetSlaveIP" /\
      ThreadSimple.threads
        (fst (ThreadSimple.command_processor_body str req d))
      = ThreadSimple.threads d /\
      exists v,
        get (payload req) "IP" (VNum 0) = Ret v /\
        ThreadSimple.slave_ip_address
          (fst (ThreadSimple.command_processor_body str req d))
        = str v)
     \/
     (resp_status r = 999%Z /\ name req = "Stop" /\
      ThreadSimple.threads
        (fst (ThreadSimple.command_processor_body str req d))
      = ThreadSimple.threads d ++ [ThreadSimple.StopTask] /\
      ThreadSimple.slave_ip_address
        (fst (ThreadSimple.command_processor_body str req d))
      = ThreadSimple.slave_ip_address d)).
Proof.
  destruct req as [n p id].
  unfold ThreadSimple.command_processor_body, ThreadSimple.route,
    ThreadSimple.restart_cmd, ThreadSimple.set_slave_ip_cmd,
    ThreadSimple.stop_cmd.
  cbn [name payload].
  destruct (String.eqb n "RestartSlave") eqn:E1.
  - apply String.eqb_eq in E1; subst n.
    destruct p; cbn; eexists; (split; [reflexivity|]); cbn;
      try solve [left; repeat split; cbn; auto].
    right; left. repeat split. eexists. reflexivity.
  - destruct (String.eqb n "SetSlaveIP") eqn:E2.
    + apply String.eqb_eq in E2; subst n.
      destruct p; cbn; eexists; (split; [reflexivity|]); cbn;
        try solve [left; repeat split; cbn; auto].
      right; right; left. repeat split. eexists. split; reflexivity.
    + destruct (String.eqb n "Stop") eqn:E3.
      * apply String.eqb_eq in E3; subst n.
        cbn; eexists; (split; [reflexivity|]); cbn.
        right; right; right. repeat split.
      * cbn; eexists; (split; [reflexivity|]); cbn.
        left; repeat split; cbn; auto.
Qed.

End DispatcherEffects.

(* ===================================================================== *)
(** ** Configuration *)
(* ===================================================================== *)

Section Configuration.
Import ExampleThreadRest.

Variable int_ : pyval -> res Z.
Variable float_ : pyval -> res Q.

(** X16. [parse_network_config] never stores an interval that is zero or
    negative: if neither interval of NETWORK_CONFIG compares [<= 0]
    before the call, neither does after it, whatever the configuration
    holds; and a call that raises has stored nothing. *)
Theorem parse_network_config_keeps_intervals_valid
    (config : pyval) (c : network_config) :
  le_zero (check_interval_sec c) = Ret false ->
  le_zero (send_retry_interval_sec c) = Ret false ->
  le_zero (check_interval_sec (fst (parse_network_config config c)))
  = Ret false /\
  le_zero (send_retry_interval_sec (fst (parse_network_config config c)))
  = Ret false /\
  match snd (parse_network_config config c) with
  | Ret _ => True
  | Raise _ => fst (parse_network_config config c) = c
  end.
Proof.
  intros Hc Hs.
  unfold parse_network_config. cbv [bind lift ret modify].
  destruct (contains "app" config) as [[|]|]; cbn [negb fst snd]; auto.
  destruct (subscript_str config "app") as [app_config|];
    cbn [fst snd]; auto.
  destruct (contains "network" app_config) as [[|]|]; cbn [negb fst snd]; auto.
  destruct (subscript_str app_config "network") as [network_cfg|];
    cbn [fst snd]; auto.
  destruct (get network_cfg "check_interval_sec" DEFAULT_CHECK_INTERVAL)
    as [ci|]; cbn [fst snd]; auto.
  destruct (le_zero ci) as [bad_ci|] eqn:Eci; cbn [fst snd]; auto.
  destruct (get network_cfg "send_retry_interval_sec"
              DEFAULT_SEND_RETRY_INTERVAL) as [ri|]; cbn [fst snd]; auto.
  destruct (le_zero ri) as [bad_ri|] eqn:Eri; cbn [fst snd]; auto.
  cbn [check_interval_sec send_retry_interval_sec].
  destruct bad_ci, bad_ri; auto.
Qed.

(** X17. A configuration whose telemetry section has no
    "heartbeat_interval_sec" cannot be loaded: [parse_telemetry_config]
    stores the telemetry interval (the default in place of one that is
    zero or negative) and then leaves with an [UnboundLocalError], the
    heartbeat interval being as it was. *)
Theorem telemetry_section_needs_heartbeat_interval
    (cd ad td : list (string * pyval)) (bad : bool) (c : telemetry_config) :
  lookup "app" cd = Some (VDict ad) ->
  lookup "telemetry" ad = Some (VDict td) ->
  lookup "heartbeat_interval_sec" td = None ->
  le_zero (match lookup "interval_sec" td with
           | Some v => v
           | None => DEFAULT_TELEMETRY_INTERVAL_SEC
           end) = Ret bad ->
  parse_telemetry_config int_ (VDict cd) c
  = ({| interval_sec :=
          if bad then DEFAULT_TELEMETRY_INTERVAL_SEC
          else match lookup "interval_sec" td with
               | Some v => v
               | None => DEFAULT_TELEMETRY_INTERVAL_SEC
               end;
        heartbeat_interval_sec := heartbeat_interval_sec c |},
     Raise UnboundLocalError).
Proof.
  intros Ha Ht Hh Hb.
  unfold parse_telemetry_config.
  cbv [bind lift ret modify contains subscript_str get].
  rewrite Ha. cbn [negb]. rewrite Ht. cbn [negb].
  rewrite Hb, Hh. reflexivity.
Qed.



End Configuration.

Lemma parse_network_config_keeps_intervals_valid_witness :
  let config :=
    VDict [("app",
            VDict [("network",
                    VDict [("check_interval_sec", VNum (-1));
                           ("send_retry_interval_sec", VNum 30)])])] in
  let c := {| ExampleThreadRest.check_interval_sec := VNum 5;
              ExampleThreadRest.send_retry_interval_sec := VNum 5 |} in
  le_zero (ExampleThreadRest.check_interval_sec
             (fst (ExampleThreadRest.parse_network_config config c)))
  = Ret false.
Proof.
  intros config c.
  apply (proj1 (parse_network_config_keeps_intervals_valid config c
                  eq_refl eq_refl)).
Defined.

Lemma telemetry_section_needs_heartbeat_interval_witness :
  ExampleThreadRest.parse_telemetry_config (fun _ => Ret 60%Z)
    (VDict [("app",
             VDict [("telemetry", VDict [("interval_sec", VNum 2)])])])
    {| ExampleThreadRest.interval_sec := VNum 10;
       ExampleThreadRest.heartbeat_interval_sec := VNum 60 |}
  = ({| ExampleThreadRest.interval_sec := VNum 2;
        ExampleThreadRest.heartbeat_interval_sec := VNum 60 |},
     Raise UnboundLocalError).
Proof.
  apply (telemetry_section_needs_heartbeat_interval (fun _ => Ret 60%Z)
           [("app", VDict [("telemetry", VDict [("interval_sec", VNum 2)])])]
           [("telemetry", VDict [("interval_sec", VNum 2)])]
           [("interval_sec", VNum 2)] false
           {| ExampleThreadRest.interval_sec := VNum 10;
              ExampleThreadRest.heartbeat_interval_sec := VNum 60 |});
    reflexivity.
Defined.


Section SimpleSlaveConfig.
Import ThreadSimpleRest.

Variable int_ : pyval -> res Z.
Variable float_ : pyval -> res Q.
Variable str : pyval -> string.
Variable find_vendor_ips_in_subnet : res pyval.

Lemma Qle_bool_false (d : Q) : Qle_bool 0 d = false -> d < 0.
Proof.
  intros E. apply Qnot_le_lt. intros H.
  apply Qle_bool_iff in H. congruence.
Qed.

(** X19. [parse_slave_config] of azure-iot-thread-simple.py never stores a
    valid setting: whether it returns or raises, each of the number, the
    power-off delay and the relay line of SLAVE_CONFIG is either what it
    was or negative, and the slave address is what it was unless the
    configured one reads as the empty string. A configured address that
    is not empty is therefore never stored. *)
Theorem simple_parse_slave_config_stores_only_invalid
    (config : pyval) (c : slave_config) :
  let c' := fst (parse_slave_config int_ float_ str
                   find_vendor_ips_in_subnet config c) in
  (num c' = num c \/ lt_zero (num c') = Ret true) /\
  (power_off_delay_sec c' = power_off_delay_sec c \/
   power_off_delay_sec c' < 0) /\
  (relay_gpio_line c' = relay_gpio_line c \/ (relay_gpio_line c' < 0)%Z) /\
  (slave_ip_address c' = slave_ip_address c \/
   exists a,
     get config "slave_ip_address" (slave_ip_address c) = Ret a /\
     str a = "").
Proof.
  unfold parse_slave_config.
  cbv [bind lift ret gets modify set_num set_power_off_delay_sec
       set_relay_gpio_line set_slave_ip_address].
  destruct c as [n0 p0 l0 a0].
  cbn [num power_off_delay_sec relay_gpio_line slave_ip_address].
  repeat match goal with
         | |- context [match ?scrutinee with _ => _ end] =>
             lazymatch scrutinee with
             | context [match _ with _ => _ end] => fail
             | _ => destruct scrutinee eqn:?
             end
         end;
    cbn [fst num power_off_delay_sec relay_gpio_line slave_ip_address];
    repeat match goal with
           | H : negb _ = true |- _ => apply negb_true_iff in H
           | H : Z.ltb _ _ = true |- _ => apply Z.ltb_lt in H
           | H : Qle_bool 0 _ = false |- _ => apply Qle_bool_false in H
           | H : String.eqb _ _ = true |- _ => apply String.eqb_eq in H
           end;
    repeat split; eauto.
Qed.

End SimpleSlaveConfig.
